(** * pytroll-watchers: the bucket-notification watcher

    A shallow embedding of [pytroll_watchers/minio_notification_watcher.py]
    ([file_publisher], [file_generator], [_record_generator]) together with
    the properties of the watch-normalize-publish pipeline.

    Python values are a small universe [pyval]; dictionaries are finite maps
    with string keys.  A generator is described by what a consumer observes
    of it: the items yielded so far and how the iteration stands afterwards
    (still blocked on its source, exhausted, or left by an exception). *)

From Stdlib Require Import Ascii.
From stdpp Require Import base option list gmap strings.

Set Default Proof Using "Type".
Local Set Warnings "-register-all".
Local Open Scope string_scope.
Local Open Scope list_scope.

(** ** Python values and exceptions *)

Module Py.

(** The values that occur in notification documents (decoded JSON), in
    storage options and in message data. *)
Inductive pyval : Type :=
| VNone
| VBool (b : bool)
| VInt (z : Z)
| VStr (s : string)
| VList (l : list pyval)
| VDict (m : gmap string pyval).

(** The exceptions the watcher can meet.  [KeyError] carries the key that
    was looked up; [OtherError] stands for whatever a collaborator raises
    that the watcher has no clause for. *)
Inductive exn : Type :=
| KeyError (k : string)
| TypeError
| ValueError
| OtherError (tag : string).

(** A computation that returns or raises. *)
Inductive result (A : Type) : Type :=
| Ret (a : A)
| Raise (e : exn).
Arguments Ret {A} a.
Arguments Raise {A} e.

Definition bind {A B} (m : result A) (k : A → result B) : result B :=
  match m with
  | Ret a => k a
  | Raise e => Raise e
  end.

(** [v[k]] for a string subscript [k]: only a dictionary answers, and only
    for a key it holds. *)
Definition getitem (v : pyval) (k : string) : result pyval :=
  match v with
  | VDict m =>
      match m !! k with
      | Some x => Ret x
      | None => Raise (KeyError k)
      end
  | _ => Raise TypeError
  end.

(** The one-character strings a [for] loop draws from a string. *)
Fixpoint chars (s : string) : list pyval :=
  match s with
  | EmptyString => []
  | String c r => VStr (String c EmptyString) :: chars r
  end.

(** [for x in v]: the items a loop over [v] visits.  A list gives its
    elements, a dictionary its keys (as the map lists them: the order of
    insertion is not recorded), a string its characters; the other values
    are not iterable. *)
Definition iter (v : pyval) : result (list pyval) :=
  match v with
  | VList l => Ret l
  | VDict m => Ret (VStr <$> (map_to_list m).*1)
  | VStr s => Ret (chars s)
  | _ => Raise TypeError
  end.

End Py.

Import Py.

#[global] Instance result_bind : MBind result := fun A B k m => Py.bind m k.

(** ** What a consumer observes of a generator *)

(** How an iteration stands after the items seen so far: the generator is
    blocked on its source, it is exhausted, or an exception left it. *)
Inductive ending : Type :=
| Pending
| Exhausted
| Raised (e : exn).

Record observed (A : Type) : Type := Observed {
  yields : list A;
  ending_of : ending
}.
Arguments Observed {A} _ _.
Arguments yields {A} _.
Arguments ending_of {A} _.

(** [yield x] followed by the rest of the run. *)
Definition yield {A} (x : A) (rest : observed A) : observed A :=
  Observed (x :: yields rest) (ending_of rest).

(** The run is over (or blocked) without a further item. *)
Definition finished {A} (e : ending) : observed A := Observed [] e.

Definition raised {A} (e : exn) : observed A := finished (Raised e).

(** ** Collaborators outside the repository *)

(** Extracted metadata, storage options and message data are dictionaries. *)
Abbreviation dict := (gmap string pyval).

(** A [UPath] object, as far as it is looked at: the address it stands
    for and the storage options it keeps. *)
Record UPath : Type := mkUPath {
  urlpath : string;
  upath_options : dict
}.

(** [AWSConfigProvider(profile=...)]. *)
Inductive credentials : Type :=
| AWSConfigProvider (profile : pyval).

(** A [Minio] client: the endpoint it talks to and its credentials. *)
Record Minio : Type := mkMinio {
  minio_endpoint : string;
  minio_credentials : option credentials
}.

(** The text an f-string gives a value that is not a string (numbers,
    containers, [None]): the interpreter's own. *)
Class Formatter := format_other : pyval → string.

(** trollsift's [parse pattern name]: the decoded placeholders, or
    [ValueError] when the name does not fit the pattern. *)
Class Trollsift := trollsift_parse : string → pyval → result dict.

(** universal_pathlib's constructor, [UPath(urlpath, ** options)] with the
    options as keyword arguments: the object it builds, or the exception it
    raises.  What it makes of the address and which options it keeps is its
    own. *)
Class Pathlib := new_UPath : string → dict → result UPath.

(** The minio package: the constructor [Minio(endpoint, credentials=...)],
    which checks its arguments and may raise, and
    [client.listen_bucket_notification(bucket_name, events=...)], given by
    what the subscription delivers as far as it is observed. *)
Class Transport := {
  new_Minio : string → option credentials → result Minio;
  listen_bucket_notification : Minio → string → list string → observed pyval
}.

(** ** The watcher: minio_notification_watcher.py *)

(** A normalized event: the location of the object and its metadata. *)
Abbreviation event := (UPath * dict)%type.

Section watcher.
Context `{!Formatter, !Trollsift, !Pathlib, !Transport}.

(** A replacement field of an f-string: a string is inserted as it is. *)
Definition format_field (v : pyval) : string :=
  match v with
  | VStr s => s
  | _ => format_other v
  end.

(** Modelled from the spec: [parse_metadata] of pytroll_watchers.publisher,
    which is not among the sources.  An absent or empty pattern accepts
    every key and extracts nothing; otherwise the key is matched against the
    pattern, and a key that does not fit raises [ValueError]. *)
Definition parse_metadata (file_pattern : option string) (object_name : pyval)
  : result dict :=
  match file_pattern with
  | None => Ret ∅
  | Some pattern =>
      if decide (pattern = "") then Ret ∅
      else trollsift_parse pattern object_name
  end.

(** The events filter of the subscription. *)
Definition object_created : list string := ["s3:ObjectCreated:*"].

(** [for event in events: yield event]. *)
Fixpoint yield_each (events : list pyval) (e : ending) : observed pyval :=
  match events with
  | [] => finished e
  | event :: rest => yield event (yield_each rest e)
  end.

(** The credentials [_record_generator] chooses: those of the profile
    when the storage options name one, none otherwise. *)
Definition profile_credentials (storage_options : dict)
  : option credentials :=
  match storage_options !! "profile" with
  | Some profile => Some (AWSConfigProvider profile)
  | None => None
  end.

(** The client [_record_generator] asks for:
    [Minio(endpoint_url, credentials=credentials)]. *)
Definition minio_client (endpoint_url : string) (storage_options : dict)
  : result Minio :=
  new_Minio endpoint_url (profile_credentials storage_options).

Definition _record_generator (endpoint_url bucket_name : string)
    (storage_options : dict) : observed pyval :=
  match minio_client endpoint_url storage_options with
  | Raise e => raised e
  | Ret client =>
      let events :=
        listen_bucket_notification client bucket_name object_created in
      yield_each (yields events) (ending_of events)
  end.

(** The two subscripts at the head of the loop body, in the order they are
    evaluated: [item["s3"]["bucket"]["name"]], then
    [item["s3"]["object"]["key"]]. *)
Definition entry_fields (item : pyval) : result (pyval * pyval) :=
  new_bucket_name ← (s3 ← getitem item "s3";
                     bucket ← getitem s3 "bucket";
                     getitem bucket "name");
  object_name ← (s3 ← getitem item "s3";
                 object ← getitem s3 "object";
                 getitem object "key");
  Ret (new_bucket_name, object_name).

(** [f"s3://{new_bucket_name}/{object_name}"]. *)
Definition object_url (new_bucket_name object_name : pyval) : string :=
  "s3://" +:+ format_field new_bucket_name +:+ "/"
          +:+ format_field object_name.

(** [UPath(f"s3://{new_bucket_name}/{object_name}", **storage_options)]:
    the constructor is called with the address and with the storage
    options as its keyword arguments. *)
Definition object_path (new_bucket_name object_name : pyval)
    (storage_options : dict) : result UPath :=
  new_UPath (object_url new_bucket_name object_name) storage_options.

(** The inner loop, [for item in record["Records"]]; [after] is the run
    that follows once the items are used up (the rest of the outer loop).
    Only the [ValueError] of [parse_metadata] is caught: the subscripts
    before the [try] and the call of [UPath] after it are outside. *)
Fixpoint for_items (file_pattern : option string) (storage_options : dict)
    (items : list pyval) (after : observed event) : observed event :=
  match items with
  | [] => after
  | item :: rest =>
      match entry_fields item with
      | Raise e => raised e
      | Ret (new_bucket_name, object_name) =>
          match parse_metadata file_pattern object_name with
          | Raise ValueError =>
              for_items file_pattern storage_options rest after
          | Raise e => raised e
          | Ret object_metadata =>
              match object_path new_bucket_name object_name storage_options
              with
              | Raise e => raised e
              | Ret path =>
                  yield (path, object_metadata)
                        (for_items file_pattern storage_options rest after)
              end
          end
      end
  end.

(** The items of one notification: [record["Records"]], iterated. *)
Definition record_items (record : pyval) : result (list pyval) :=
  records ← getitem record "Records"; iter records.

(** The outer loop, [for record in _record_generator(...)]; [source_end]
    is how the record generator stands after the records seen. *)
Fixpoint for_records (file_pattern : option string) (storage_options : dict)
    (records : list pyval) (source_end : ending) : observed event :=
  match records with
  | [] => finished source_end
  | record :: rest =>
      match record_items record with
      | Raise e => raised e
      | Ret items =>
          for_items file_pattern storage_options items
            (for_records file_pattern storage_options rest source_end)
      end
  end.

Definition file_generator (endpoint_url bucket_name : string)
    (file_pattern : option string) (storage_options : option dict)
  : observed event :=
  let storage_options :=
    match storage_options with
    | None => ∅
    | Some d => d
    end in
  let source := _record_generator endpoint_url bucket_name storage_options in
  for_records file_pattern storage_options (yields source) (ending_of source).

End watcher.

(** ** The entries of a notification, as the normalizer sorts them *)

(** What the loop body makes of one entry: a match with its event, a key
    that does not fit the pattern, a record from which bucket name or key
    cannot be read, a failure of the metadata extractor other than a
    mismatch, or a key that fits and a location that [UPath] refuses to
    build. *)
Inductive entry_kind : Type :=
| Match (ev : event)
| NoMatch
| MalformedRecord (e : exn)
| ExtractorFailure (e : exn)
| LocationFailure (e : exn).

Section entries.
Context `{!Formatter, !Trollsift, !Pathlib}.

Definition classify (file_pattern : option string) (storage_options : dict)
    (item : pyval) : entry_kind :=
  match entry_fields item with
  | Raise e => MalformedRecord e
  | Ret (new_bucket_name, object_name) =>
      match parse_metadata file_pattern object_name with
      | Ret object_metadata =>
          match object_path new_bucket_name object_name storage_options with
          | Ret path => Match (path, object_metadata)
          | Raise e => LocationFailure e
          end
      | Raise ValueError => NoMatch
      | Raise e => ExtractorFailure e
      end
  end.

Definition matched (file_pattern : option string) (storage_options : dict)
    (item : pyval) : option event :=
  match classify file_pattern storage_options item with
  | Match ev => Some ev
  | _ => None
  end.

(** The key of the entry fits the pattern. *)
Definition is_matching (file_pattern : option string) (item : pyval) : bool :=
  match entry_fields item with
  | Ret (_, object_name) =>
      match parse_metadata file_pattern object_name with
      | Ret _ => true
      | Raise _ => false
      end
  | Raise _ => false
  end.

(** The key of the entry does not fit the pattern. *)
Definition is_nomatch (file_pattern : option string) (item : pyval) : bool :=
  match entry_fields item with
  | Ret (_, object_name) =>
      match parse_metadata file_pattern object_name with
      | Raise ValueError => true
      | _ => false
      end
  | Raise _ => false
  end.

(** [UPath] builds the location of the entry with these storage options. *)
Definition locatable (storage_options : dict) (item : pyval) : bool :=
  match entry_fields item with
  | Ret (new_bucket_name, object_name) =>
      match object_path new_bucket_name object_name storage_options with
      | Ret _ => true
      | Raise _ => false
      end
  | Raise _ => false
  end.

(** An entry after which the loop goes on: a match whose location is
    built, or a mismatch. *)
Definition handled (file_pattern : option string) (storage_options : dict)
    (item : pyval) : Prop :=
  (is_matching file_pattern item = true
   ∧ locatable storage_options item = true)
  ∨ is_nomatch file_pattern item = true.

Definition is_malformed (item : pyval) : bool :=
  match entry_fields item with
  | Raise _ => true
  | Ret _ => false
  end.

(** The events of the matching entries, in the order of the entries. *)
Definition matching_events (file_pattern : option string)
    (storage_options : dict) (entries : list pyval) : list event :=
  omap (matched file_pattern storage_options) entries.

(** Every notification of [records] has the entries of the batch at the
    same position. *)
Definition batched (records : list pyval) (batches : list (list pyval))
  : Prop :=
  Forall2 (fun record items => record_items record = Ret items)
          records batches.

(** [UPath] builds a location for the address, and the location stands
    for that address. *)
Definition builds_address (storage_options : dict) (url : string) : Prop :=
  ∃ path, new_UPath url storage_options = Ret path ∧ urlpath path = url.

(** Two entries that name the same bucket and the same key, whatever else
    they hold; two notifications whose entries agree so, one by one. *)
Definition entry_agree (a b : pyval) : Prop :=
  ∃ fields, entry_fields a = Ret fields ∧ entry_fields b = Ret fields.

Definition record_agree (r1 r2 : pyval) : Prop :=
  ∃ items1 items2,
    record_items r1 = Ret items1 ∧ record_items r2 = Ret items2 ∧
    Forall2 entry_agree items1 items2.

End entries.

(** Items put in front of a run. *)
Definition prepend {A} (l : list A) (rest : observed A) : observed A :=
  Observed (l ++ yields rest)%list (ending_of rest).

(** ** The publisher *)

(** [message_config]: subject, type tag and static data. *)
Record message_config : Type := MessageConfig {
  subject : string;
  atype : string;
  data : dict
}.

(** A message handed to the sink. *)
Record OutboundMessage : Type := Message {
  msg_subject : string;
  msg_atype : string;
  msg_data : dict
}.

(** The filesystem descriptor of a location, when it has one. *)
Class Filesystem := filesystem_descriptor : UPath → option pyval.

(** The publishing sink, built from [publisher_config]: sending returns the
    sink after the emission, or raises. *)
Class Sink (config state : Type) := {
  create_publisher : config → state;
  send : state → OutboundMessage → result state
}.

(** The keyword arguments [file_publisher] passes on to [file_generator]. *)
Record fs_config : Type := FsConfig {
  endpoint_url : string;
  bucket_name : string;
  file_pattern : option string;
  storage_options : option dict
}.

(** The data keys of the resolved address and of the filesystem
    descriptor, as the tests read them back. *)
Definition url_key : string := "url".
Definition fs_key : string := "fs".

Section publisher.
Context `{!Formatter, !Trollsift, !Pathlib, !Transport, !Filesystem}.
Context {config state : Type} `{!Sink config state}.

(** Modelled from the spec: the message of one event, built by
    [file_publisher_from_generator] of pytroll_watchers.publisher, which is
    not among the sources.  The data starts as the static data of the
    message configuration, is updated with the extracted metadata, and the
    resolved address and descriptor are stored last; subject and type are
    those of the configuration. *)
Definition build_message (cfg : message_config) (ev : event)
  : OutboundMessage :=
  let '(location, metadata) := ev in
  let static := data cfg in
  let updated := metadata ∪ static in
  let addressed := <[url_key := VStr (urlpath location)]> updated in
  let described :=
    match filesystem_descriptor location with
    | Some descriptor => <[fs_key := descriptor]> addressed
    | None => addressed
    end in
  Message (subject cfg) (atype cfg) described.

(** Modelled from the spec: the publish loop of
    [file_publisher_from_generator].  One message is sent per event, in
    order; a failure of the sink ends the loop and reaches the caller. *)
Fixpoint publish_events (cfg : message_config) (events : list event)
    (source_end : ending) (sink : state) : state * ending :=
  match events with
  | [] => (sink, source_end)
  | ev :: rest =>
      match send sink (build_message cfg ev) with
      | Raise e => (sink, Raised e)
      | Ret sink' => publish_events cfg rest source_end sink'
      end
  end.

(** Modelled from the spec: [file_publisher_from_generator], which is not
    among the sources; it drains the generator into the sink. *)
Definition file_publisher_from_generator (generator : observed event)
    (publisher_config : config) (cfg : message_config) : state * ending :=
  publish_events cfg (yields generator) (ending_of generator)
    (create_publisher publisher_config).

Definition file_publisher (fs : fs_config) (publisher_config : config)
    (cfg : message_config) : state * ending :=
  let generator :=
    file_generator (endpoint_url fs) (bucket_name fs) (file_pattern fs)
                   (storage_options fs) in
  file_publisher_from_generator generator publisher_config cfg.

End publisher.

(** ** Test doubles and the reference fixture *)

(** [fake_bucket_listener] of the tests: the class [Minio] itself is a
    mock, so that the constructor returns whatever it is called with, and
    the subscription is the given list of records whatever the call. *)
Definition fake_listen (records : list pyval) : Transport :=
  {| new_Minio := fun endpoint credentials =>
                    Ret (mkMinio endpoint credentials);
     listen_bucket_notification := fun _ _ _ => Observed records Exhausted |}.

(** [patched_bucket_listener] of testing.py: only the method
    [listen_bucket_notification] is replaced, the constructor of the client
    is the one of the package. *)
Definition patched_bucket_listener (records : list pyval)
    (package : Transport) : Transport :=
  {| new_Minio := @new_Minio package;
     listen_bucket_notification := fun _ _ _ => Observed records Exhausted |}.

(** [patched_publisher]: the sink keeps the messages it was sent. *)
Definition patched_publisher : Sink unit (list OutboundMessage) :=
  {| create_publisher := fun _ => [];
     send := fun sent msg => Ret (sent ++ [msg])%list |}.

(** A formatter, a pattern parser and a filesystem to run examples with.
    The parser accepts the keys that start with the pattern and extracts
    nothing. *)
Definition plain_formatter : Formatter := fun _ => "<value>".

Definition prefix_parser : Trollsift :=
  fun pattern name =>
    match name with
    | VStr s => if String.prefix pattern s then Ret ∅ else Raise ValueError
    | _ => Raise TypeError
    end.

Definition s3_filesystem : Filesystem :=
  fun _ => Some (VStr "s3fs.core.S3FileSystem").

(** Whether a character occurs in a string; a string without its first
    [n] characters; a string up to its first [/]. *)
Fixpoint contains (c : ascii) (s : string) : bool :=
  match s with
  | EmptyString => false
  | String c' rest => if Ascii.eqb c' c then true else contains c rest
  end.

Fixpoint string_drop (n : nat) (s : string) : string :=
  match n, s with
  | S n', String _ rest => string_drop n' rest
  | _, _ => s
  end.

Fixpoint until_slash (s : string) : string :=
  match s with
  | EmptyString => EmptyString
  | String c rest =>
      if Ascii.eqb c "/"%char then EmptyString
      else String c (until_slash rest)
  end.

(** A stand-in for the constructor of [UPath] on [s3://] addresses, with
    three behaviours of the library: a host part with an unpaired square
    bracket is refused with [ValueError] (by the splitting of the address),
    a [protocol] keyword other than [s3] is refused with [ValueError], and
    a [protocol] keyword is the constructor's own and is not kept among
    the storage options.  Otherwise the object holds the address and the
    options as given. *)
Definition s3_upath : Pathlib :=
  fun url options =>
    let host := until_slash (string_drop 5 url) in
    if xorb (contains "["%char host) (contains "]"%char host)
    then Raise ValueError
    else
      match options !! "protocol" with
      | None => Ret (mkUPath url options)
      | Some (VStr protocol) =>
          if decide (protocol = "s3")
          then Ret (mkUPath url (delete "protocol" options))
          else Raise ValueError
      | Some _ => Raise ValueError
      end.

(** A stand-in for the minio package that shows what the client was built
    with: the subscription delivers one entry, of the bucket asked for,
    whose key is the profile of the client's credentials ([None] without
    credentials). *)
Definition telling_minio : Transport :=
  {| new_Minio := fun endpoint credentials =>
                    Ret (mkMinio endpoint credentials);
     listen_bucket_notification := fun client bucket _ =>
       Observed
         [VDict {[ "Records" :=
            VList [VDict {[ "s3" :=
              VDict (<["bucket" := VDict {[ "name" := VStr bucket ]}]>
                       {[ "object" :=
                          VDict {[ "key" :=
                            match minio_credentials client with
                            | Some (AWSConfigProvider profile) => profile
                            | None => VNone
                            end ]} ]}) ]}] ]}]
         Exhausted |}.

(** A stand-in for the minio package whose constructor refuses an endpoint
    with a [/] in it, as the package refuses an endpoint with a path. *)
Definition checking_minio : Transport :=
  {| new_Minio := fun endpoint credentials =>
                    if contains "/"%char endpoint then Raise ValueError
                    else Ret (mkMinio endpoint credentials);
     listen_bucket_notification := fun _ _ _ => Observed [] Exhausted |}.

Definition obj (fields : list (string * pyval)) : pyval :=
  VDict (list_to_map fields).

(** One entry of the fixture of tests/test_bucket_notification_watcher.py;
    the arguments are the fields that differ between its entries. *)
Definition fixture_entry (event_name event_time : string)
    (content_length : option string) (request_id etag key sequencer : string)
    (size : Z) : pyval :=
  obj [("awsRegion", VStr "");
       ("eventName", VStr event_name);
       ("eventSource", VStr "minio:s3");
       ("eventTime", VStr event_time);
       ("eventVersion", VStr "2.0");
       ("requestParameters",
        obj [("principalId", VStr "someuser");
             ("region", VStr "");
             ("sourceIPAddress", VStr "172.29.4.164")]);
       ("responseElements",
        obj (match content_length with
             | Some n => [("content-length", VStr n)]
             | None => []
             end ++
             [("x-amz-id-2",
               VStr "b675f5c02385af78c69266a96b22038bea3ecd7423814977a7267fd68ac2bbeb");
              ("x-amz-request-id", VStr request_id);
              ("x-minio-deployment-id",
               VStr "a287d091-5b07-4b97-90c7-856aca7e9543");
              ("x-minio-origin-endpoint", VStr "https://172.31.28.90:443")])%list);
       ("s3",
        obj [("bucket",
              obj [("arn", VStr "arn:aws:s3:::viirs-data");
                   ("name", VStr "viirs-data");
                   ("ownerIdentity", obj [("principalId", VStr "someuser")])]);
             ("configurationId", VStr "Config");
             ("object",
              obj [("contentType", VStr "application/x-hdf5");
                   ("eTag", VStr etag);
                   ("key", VStr key);
                   ("sequencer", VStr sequencer);
                   ("size", VInt size);
                   ("userMetadata",
                    obj [("content-type", VStr "application/x-hdf5")])]);
             ("s3SchemaVersion", VStr "1.0")]);
       ("source",
        obj [("host", VStr "172.29.4.164");
             ("port", VStr "");
             ("userAgent",
              VStr ("aiobotocore/2.12.1 md/Botocore#1.34.51 ua/2.0 " +:+
                    "os/linux#4.18.0-513.18.1.el8_9.x86_64 " +:+
                    "md/arch#x86_64 lang/python#3.11.8 md/pyimpl#CPython " +:+
                    "cfg/retry-mode#legacy botocore/1.34.51"))]);
       ("userIdentity", obj [("principalId", VStr "someuser")])].

Definition notification (entries : list pyval) : pyval :=
  obj [("Records", VList entries)].

(** The fourteen notifications of the fixture, in order. *)
Definition records : list pyval :=
  [notification [fixture_entry "s3:ObjectCreated:Put"
       "2024-04-08T10:24:22.544Z" None "17C4470908962A15"
       "9f6fbbf9e2b44509afa922b8d9884682"
       "sdr/SVM13_npp_d20240408_t1006227_e1007469_b64498_c20240408102334392250_cspp_dev.h5"
       "17C447090F3AB797" 22183568%Z];
   notification [fixture_entry "s3:ObjectCreated:Put"
       "2024-04-08T10:24:22.666Z" None "17C4470912FB48E9"
       "f92d4f4c1b33b8397fc710aed80ab134"
       "sdr/SVM14_npp_d20240408_t1006227_e1007469_b64498_c20240408102334431798_cspp_dev.h5"
       "17C4470916824E6A" 12357960%Z];
   notification [fixture_entry "s3:ObjectCreated:Put"
       "2024-04-08T10:24:22.790Z" None "17C447091A7B932E"
       "9ffffd85b277704d0b85ecc22d8337ce"
       "sdr/SVM15_npp_d20240408_t1006227_e1007469_b64498_c20240408102334471520_cspp_dev.h5"
       "17C447091DE5AEA9" 12357960%Z];
   notification [fixture_entry "s3:ObjectCreated:Put"
       "2024-04-08T10:24:22.925Z" None "17C4470921D01846"
       "a7cea3e72dea4845905922a851fac53c"
       "sdr/SVM16_npp_d20240408_t1006227_e1007469_b64498_c20240408102334509150_cspp_dev.h5"
       "17C4470925EB97C5" 12357960%Z];
   notification [fixture_entry "s3:ObjectCreated:CompleteMultipartUpload"
       "2024-04-08T10:24:25.377Z" (Some "518") "17C44709B7B42BA6"
       "6accbb0d6937313fb06b5c09a88b0045-7"
       "sdr/GIMGO_npp_d20240408_t1006227_e1007469_b64498_c20240408102307309287_cspp_dev.h5"
       "17C44709B802FBCF" 324490832%Z];
   notification [fixture_entry "s3:ObjectCreated:CompleteMultipartUpload"
       "2024-04-08T10:24:27.829Z" (Some "518") "17C4470A4A03BE3D"
       "36a554f5a2f344ed5f3ffb7826f0a17a-7"
       "sdr/GITCO_npp_d20240408_t1006227_e1007469_b64498_c20240408102307123064_cspp_dev.h5"
       "17C4470A4A2E9DF0" 324490848%Z];
   notification [fixture_entry "s3:ObjectCreated:Put"
       "2024-04-08T10:24:28.227Z" None "17C4470A55A65AC6"
       "c5804716bfa4431e35957308d0266b37"
       "sdr/SVI01_npp_d20240408_t1006227_e1007469_b64498_c20240408102333369886_cspp_dev.h5"
       "17C4470A61DAC380" 49222736%Z];
   notification [fixture_entry "s3:ObjectCreated:Put"
       "2024-04-08T10:24:28.605Z" None "17C4470A6C179370"
       "6e0465a1a67e401d08312d511e14b797"
       "sdr/SVI02_npp_d20240408_t1006227_e1007469_b64498_c20240408102333521003_cspp_dev.h5"
       "17C4470A7877A613" 49222736%Z];
   notification [fixture_entry "s3:ObjectCreated:Put"
       "2024-04-08T10:24:28.998Z" None "17C4470A8318051B"
       "f7a1a9089841e810a4249ee43ac7d344"
       "sdr/SVI03_npp_d20240408_t1006227_e1007469_b64498_c20240408102333616593_cspp_dev.h5"
       "17C4470A8FCB6DF1" 49222736%Z];
   notification [fixture_entry "s3:ObjectCreated:Put"
       "2024-04-08T10:24:29.475Z" None "17C4470A99695857"
       "ade56421a7d2b40a27ac32312d496c99"
       "sdr/SVI04_npp_d20240408_t1006227_e1007469_b64498_c20240408102333718056_cspp_dev.h5"
       "17C4470AAC4C3A1E" 49222736%Z];
   notification [fixture_entry "s3:ObjectCreated:Put"
       "2024-04-08T10:24:29.881Z" None "17C4470AB6F25E72"
       "70c7e8e51601a450c5cd73b3d6e2d57e"
       "sdr/SVI05_npp_d20240408_t1006227_e1007469_b64498_c20240408102333815418_cspp_dev.h5"
       "17C4470AC47FA93E" 49222736%Z];
   notification [fixture_entry "s3:ObjectCreated:CompleteMultipartUpload"
       "2024-04-08T10:24:31.138Z" (Some "518") "17C4470B0F539914"
       "8cfd404cd0a9fde9088ebb8472c0eb7d-4"
       "sdr/GDNBO_npp_d20240408_t1006227_e1007469_b64498_c20240408102306939475_cspp_dev.h5"
       "17C4470B0F75A541" 168652400%Z];
   notification [fixture_entry "s3:ObjectCreated:Put"
       "2024-04-08T10:24:31.293Z" None "17C4470B143343A8"
       "45a903f620151c6e84b3dcabc7662692"
       "sdr/SVDNB_npp_d20240408_t1006227_e1007469_b64498_c20240408102332971066_cspp_dev.h5"
       "17C4470B18B25911" 15662132%Z];
   notification [fixture_entry "s3:ObjectCreated:CompleteMultipartUpload"
       "2024-04-08T10:24:32.244Z" (Some "518") "17C4470B5138A602"
       "fea57bce523e03c1cc38d864beb8a3d5-3"
       "sdr/IVCDB_npp_d20240408_t1006227_e1007469_b64498_c20240408102333190566_cspp_dev.h5"
       "17C4470B515E6945" 123520808%Z]].

(** Entries for examples: one without the object key, one without the
    bucket name, and well-formed ones. *)
Definition entry (bucket key : string) : pyval :=
  obj [("eventName", VStr "s3:ObjectCreated:Put");
       ("s3", obj [("bucket", obj [("name", VStr bucket)]);
                   ("object", obj [("key", VStr key)])])].

Definition entry_without_key (bucket : string) : pyval :=
  obj [("eventName", VStr "s3:ObjectCreated:Put");
       ("s3", obj [("bucket", obj [("name", VStr bucket)]);
                   ("object", obj [("size", VInt 12%Z)])])].

Definition entry_without_bucket_name (key : string) : pyval :=
  obj [("s3", obj [("bucket", obj [("arn", VStr "arn:aws:s3:::tmp")]);
                   ("object", obj [("key", VStr key)])])].

(** The object keys of the fixture, in the order of its notifications. *)
Definition fixture_keys : list string :=
  ["sdr/SVM13_npp_d20240408_t1006227_e1007469_b64498_c20240408102334392250_cspp_dev.h5";
   "sdr/SVM14_npp_d20240408_t1006227_e1007469_b64498_c20240408102334431798_cspp_dev.h5";
   "sdr/SVM15_npp_d20240408_t1006227_e1007469_b64498_c20240408102334471520_cspp_dev.h5";
   "sdr/SVM16_npp_d20240408_t1006227_e1007469_b64498_c20240408102334509150_cspp_dev.h5";
   "sdr/GIMGO_npp_d20240408_t1006227_e1007469_b64498_c20240408102307309287_cspp_dev.h5";
   "sdr/GITCO_npp_d20240408_t1006227_e1007469_b64498_c20240408102307123064_cspp_dev.h5";
   "sdr/SVI01_npp_d20240408_t1006227_e1007469_b64498_c20240408102333369886_cspp_dev.h5";
   "sdr/SVI02_npp_d20240408_t1006227_e1007469_b64498_c20240408102333521003_cspp_dev.h5";
   "sdr/SVI03_npp_d20240408_t1006227_e1007469_b64498_c20240408102333616593_cspp_dev.h5";
   "sdr/SVI04_npp_d20240408_t1006227_e1007469_b64498_c20240408102333718056_cspp_dev.h5";
   "sdr/SVI05_npp_d20240408_t1006227_e1007469_b64498_c20240408102333815418_cspp_dev.h5";
   "sdr/GDNBO_npp_d20240408_t1006227_e1007469_b64498_c20240408102306939475_cspp_dev.h5";
   "sdr/SVDNB_npp_d20240408_t1006227_e1007469_b64498_c20240408102332971066_cspp_dev.h5";
   "sdr/IVCDB_npp_d20240408_t1006227_e1007469_b64498_c20240408102333190566_cspp_dev.h5"].

(** The settings of [test_publish_paths]. *)
Definition message_settings : message_config :=
  MessageConfig "/segment/viirs/l1b/" "file" {[ "sensor" := VStr "viirs" ]}.

(** A message configuration and metadata that share the name [sensor], and
    both of which also hold the key of the resolved address. *)
Definition clashing_settings : message_config :=
  MessageConfig "/segment/viirs/l1b/" "file"
    (<["sensor" := VStr "viirs"]> (<["url" := VStr "static"]> ∅)).

Definition clashing_metadata : dict :=
  <["sensor" := VStr "modis"]> (<["url" := VStr "extracted"]> ∅).

(** Small runs for examples: keys to be matched against the pattern [a],
    in notifications of one to three entries. *)
Definition first_record : pyval := notification [entry "tmp" "a.tif"].

Definition mixed_record : pyval :=
  notification [entry "tmp" "ab.tif"; entry "tmp" "zz.png";
                entry "tmp" "ac.tif"].

Definition mixed_record_without_mismatch : pyval :=
  notification [entry "tmp" "ab.tif"; entry "tmp" "ac.tif"].

Definition broken_record : pyval :=
  notification [entry "tmp" "ab.tif"; entry_without_key "tmp";
                entry "tmp" "ac.tif"].

Definition last_record : pyval := notification [entry "tmp" "ad.tif"].

Definition example_records : list pyval :=
  [first_record; mixed_record; last_record].

Definition example_batches : list (list pyval) :=
  [[entry "tmp" "a.tif"];
   [entry "tmp" "ab.tif"; entry "tmp" "zz.png"; entry "tmp" "ac.tif"];
   [entry "tmp" "ad.tif"]].

(** The location of an object of bucket [tmp], without options. *)
Definition tmp_event (key : string) : event :=
  (mkUPath ("s3://tmp/" +:+ key) ∅, ∅).

(** The first notification of the fixture, and one that names the same
    bucket and key and nothing else. *)
Definition fixture_head : pyval :=
  notification [fixture_entry "s3:ObjectCreated:Put"
       "2024-04-08T10:24:22.544Z" None "17C4470908962A15"
       "9f6fbbf9e2b44509afa922b8d9884682"
       "sdr/SVM13_npp_d20240408_t1006227_e1007469_b64498_c20240408102334392250_cspp_dev.h5"
       "17C447090F3AB797" 22183568%Z].

Definition bare_head : pyval :=
  notification [entry "viirs-data"
       "sdr/SVM13_npp_d20240408_t1006227_e1007469_b64498_c20240408102334392250_cspp_dev.h5"].

(** ** Further notions: entries received, keyword binding, bucket names *)

(** The entries of the notifications received, in order; a notification
    whose entries cannot be read contributes none. *)
Definition received_entries (records : list pyval) : list pyval :=
  flat_map (fun record =>
              match record_items record with
              | Ret items => items
              | Raise _ => []
              end)
           records.

(** The arguments of [file_generator] as a call binds them; a parameter
    with a default that is not passed is [None]. *)
Record call_args : Type := CallArgs {
  arg_endpoint_url : pyval;
  arg_bucket_name : pyval;
  arg_file_pattern : pyval;
  arg_storage_options : pyval
}.

(** The parameter names of
    [file_generator(endpoint_url, bucket_name, file_pattern=None,
    storage_options=None)]. *)
Definition file_generator_parameters : list string :=
  ["endpoint_url"; "bucket_name"; "file_pattern"; "storage_options"].

(** [file_generator] called with the items of [fs_config] as keywords: a
    keyword that is no parameter, or a parameter without default that is
    not passed, is a [TypeError] of the call. *)
Definition bind_file_generator (fs_config : dict) : result call_args :=
  if decide (dom fs_config ⊆ list_to_set file_generator_parameters) then
    match fs_config !! "endpoint_url", fs_config !! "bucket_name" with
    | Some endpoint, Some bucket =>
        Ret (CallArgs endpoint bucket
                      (default VNone (fs_config !! "file_pattern"))
                      (default VNone (fs_config !! "storage_options")))
    | _, _ => Raise TypeError
    end
  else Raise TypeError.

(** The head of [file_publisher]: the log line reads
    [fs_config['bucket_name']], then the generator is created from the
    keywords of [fs_config]. *)
Definition file_publisher_call (fs_config : dict) : result call_args :=
  _ ← getitem (VDict fs_config) "bucket_name";
  bind_file_generator fs_config.

(** The [s3_config] of the tests, and one with the profile among the
    storage options. *)
Definition s3_config : dict :=
  list_to_map [("endpoint_url", VStr "someendpoint");
               ("bucket_name", VStr "viirs-data");
               ("profile", VStr "someprofile")].

Definition s3_config_with_options : dict :=
  list_to_map [("endpoint_url", VStr "someendpoint");
               ("bucket_name", VStr "viirs-data");
               ("storage_options",
                obj [("profile", VStr "someprofile")])].

(** An entry whose key is any value, and notifications whose [Records]
    is any value or is missing. *)
Definition entry_with_key (bucket : string) (key : pyval) : pyval :=
  obj [("s3", obj [("bucket", obj [("name", VStr bucket)]);
                   ("object", obj [("key", key)])])].

Definition notification_of (entries : pyval) : pyval :=
  obj [("Records", entries)].

Definition notification_without_records : pyval :=
  obj [("EventName", VStr "s3:ObjectCreated:Put")].

(** A subscription observed with the given records and standing. *)
Definition listen_observed (records : list pyval) (e : ending) : Transport :=
  {| new_Minio := fun endpoint credentials =>
                    Ret (mkMinio endpoint credentials);
     listen_bucket_notification := fun _ _ _ => Observed records e |}.

(** A notification whose second entry has a number for its key. *)
Definition odd_key_record : pyval :=
  notification [entry "tmp" "ab.tif"; entry_with_key "tmp" (VInt 5);
                entry "tmp" "ac.tif"].

(** ** The loops of [file_generator] *)

Section loops.
Context `{!Formatter, !Trollsift, !Pathlib}.
Implicit Types (file_pattern : option string) (storage_options : dict).
Implicit Types (items entries : list pyval) (after : observed event).

Lemma prepend_nil {A} (o : observed A) : prepend [] o = o.
Proof. by destruct o. Qed.

Lemma prepend_app {A} (l1 l2 : list A) (o : observed A) :
  prepend (l1 ++ l2) o = prepend l1 (prepend l2 o).
Proof. unfold prepend; simpl. by rewrite <- app_assoc. Qed.

(** A match is an entry whose fields are read, whose key fits and whose
    location is built. *)
Lemma classify_match_inv file_pattern storage_options item ev :
  classify file_pattern storage_options item = Match ev →
  ∃ n k, entry_fields item = Ret (n, k) ∧
         parse_metadata file_pattern k = Ret ev.2 ∧
         object_path n k storage_options = Ret ev.1.
Proof.
  unfold classify. destruct (entry_fields item) as [[n k]|e]; [|done].
  destruct (parse_metadata file_pattern k) as [md|[]] eqn:Hp; try done.
  destruct (object_path n k storage_options) as [path|e] eqn:Hl; [|done].
  intros [= <-]. by exists n, k.
Qed.

Lemma is_matching_spec file_pattern item :
  is_matching file_pattern item = true ↔
  ∃ n k md, entry_fields item = Ret (n, k) ∧
            parse_metadata file_pattern k = Ret md.
Proof.
  unfold is_matching.
  destruct (entry_fields item) as [[n k]|e].
  - destruct (parse_metadata file_pattern k) as [md|err] eqn:Hp.
    + split; [|done]. intros _. by exists n, k, md.
    + split; [done|]. intros (?&?&?&[= <- <-]&Hq). by rewrite Hp in Hq.
  - split; [done|]. by intros (?&?&?&?&?).
Qed.

Lemma is_nomatch_spec file_pattern item :
  is_nomatch file_pattern item = true ↔
  ∃ n k, entry_fields item = Ret (n, k) ∧
         parse_metadata file_pattern k = Raise ValueError.
Proof.
  unfold is_nomatch.
  destruct (entry_fields item) as [[n k]|e].
  - destruct (parse_metadata file_pattern k) as [md|[]] eqn:Hp.
    all: split; [try done; intros _; by exists n, k|].
    all: intros (?&?&[= <- <-]&Hq); by rewrite Hp in Hq.
  - split; [done|]. by intros (?&?&?&?).
Qed.

(** One turn of the inner loop, by the kind of the entry. *)
Lemma for_items_cons file_pattern storage_options item items after :
  for_items file_pattern storage_options (item :: items) after =
  match classify file_pattern storage_options item with
  | Match ev => yield ev (for_items file_pattern storage_options items after)
  | NoMatch => for_items file_pattern storage_options items after
  | MalformedRecord e | ExtractorFailure e | LocationFailure e => raised e
  end.
Proof.
  simpl. unfold classify.
  destruct (entry_fields item) as [[n k]|e]; [|done].
  destruct (parse_metadata file_pattern k) as [md|[]]; try done.
  by destruct (object_path n k storage_options).
Qed.

(** The inner loop over a concatenation runs the second part as what
    follows the first. *)
Lemma for_items_app file_pattern storage_options items1 items2 after :
  for_items file_pattern storage_options (items1 ++ items2) after =
  for_items file_pattern storage_options items1
    (for_items file_pattern storage_options items2 after).
Proof.
  induction items1 as [|item items1 IH]; [done|].
  rewrite <- app_comm_cons, !for_items_cons, IH. done.
Qed.

(** The entries after which the loop goes on are the matches and the
    mismatches. *)
Lemma handled_classify file_pattern storage_options item :
  handled file_pattern storage_options item ↔
  (∃ ev, classify file_pattern storage_options item = Match ev)
  ∨ classify file_pattern storage_options item = NoMatch.
Proof.
  unfold handled, is_matching, is_nomatch, locatable, classify.
  destruct (entry_fields item) as [[n k]|e].
  - destruct (parse_metadata file_pattern k) as [md|[]].
    + destruct (object_path n k storage_options) as [path|e]; split.
      * intros _. left. eauto.
      * intros _. by left.
      * by intros [[_ ?]|?].
      * by intros [[? ?]|?].
    + split; [by intros [[? _]|?] | by intros [[? ?]|?]].
    + split; [by intros [[? _]|?] | by intros [[? ?]|?]].
    + split; [intros _; by right | intros _; by right].
    + split; [by intros [[? _]|?] | by intros [[? ?]|?]].
  - split; [by intros [[? _]|?] | by intros [[? ?]|?]].
Qed.

Lemma matched_handled file_pattern storage_options item :
  handled file_pattern storage_options item →
  classify file_pattern storage_options item =
    match matched file_pattern storage_options item with
    | Some ev => Match ev
    | None => NoMatch
    end.
Proof.
  intros [[ev Hc]|Hc]%handled_classify; unfold matched; by rewrite Hc.
Qed.

(** Over handled entries the inner loop yields the events of the matches,
    in order, and goes on with what follows. *)
Lemma for_items_handled file_pattern storage_options items after :
  Forall (handled file_pattern storage_options) items →
  for_items file_pattern storage_options items after =
  prepend (matching_events file_pattern storage_options items) after.
Proof.
  induction 1 as [|item items Hitem _ IH].
  - unfold matching_events. simpl. by rewrite prepend_nil.
  - rewrite for_items_cons, matched_handled by done.
    rewrite IH. unfold matching_events. simpl.
    by destruct (matched file_pattern storage_options item).
Qed.

(** The outer loop over notifications whose entries are all handled. *)
Lemma for_records_handled file_pattern storage_options records batches
    rest source_end :
  batched records batches →
  Forall (handled file_pattern storage_options) (concat batches) →
  for_records file_pattern storage_options (records ++ rest) source_end =
  prepend (matching_events file_pattern storage_options (concat batches))
          (for_records file_pattern storage_options rest source_end).
Proof.
  unfold batched. induction 1 as [|record items records batches Hr _ IH].
  - intros _. unfold matching_events. simpl. by rewrite prepend_nil.
  - simpl. intros [Hitems Hrest]%Forall_app.
    rewrite Hr, for_items_handled, IH by done.
    unfold matching_events. by rewrite omap_app, prepend_app.
Qed.

(** Among handled entries the events are as many as the entries whose key
    fits the pattern. *)
Lemma length_matching_events file_pattern storage_options entries :
  Forall (handled file_pattern storage_options) entries →
  length (matching_events file_pattern storage_options entries) =
  length (filter (fun item => is_matching file_pattern item = true) entries).
Proof.
  unfold matching_events.
  induction 1 as [|item entries Hitem _ IH]; [done|].
  rewrite filter_cons. simpl.
  assert (is_Some (matched file_pattern storage_options item) ↔
          is_matching file_pattern item = true) as Hiff.
  { revert Hitem.
    unfold handled, matched, is_matching, is_nomatch, locatable, classify.
    destruct (entry_fields item) as [[n k]|e].
    - destruct (parse_metadata file_pattern k) as [md|[]].
      + destruct (object_path n k storage_options) as [path|e].
        * intros _. split; [done|]. intros _. eauto.
        * by intros [[_ ?]|?].
      + intros _. split; [by intros [? ?]|done].
      + intros _. split; [by intros [? ?]|done].
      + intros _. split; [by intros [? ?]|done].
      + intros _. split; [by intros [? ?]|done].
    - intros _. split; [by intros [? ?]|done]. }
  destruct (matched file_pattern storage_options item) as [ev|] eqn:Hm.
  - rewrite decide_True by (apply Hiff; eauto). simpl. f_equal. exact IH.
  - rewrite decide_False; [exact IH|]. intros Ht%Hiff. by destruct Ht.
Qed.

Lemma length_matching_events_le file_pattern storage_options entries :
  (length (matching_events file_pattern storage_options entries)
   ≤ length entries)%nat.
Proof.
  unfold matching_events. induction entries as [|item entries IH]; [done|].
  simpl. destruct (matched file_pattern storage_options item); simpl.
  - by apply le_n_S.
  - by apply le_S.
Qed.

End loops.

(** ** What [file_generator] yields *)

Section generator.
Context `{!Formatter, !Trollsift, !Pathlib}.
Implicit Types (file_pattern : option string) (storage_options : dict).
Implicit Types (records : list pyval) (batches : list (list pyval)).

Lemma yield_each_observed (events : list pyval) (e : ending) :
  yield_each events e = Observed events e.
Proof.
  induction events as [|event events IH]; [done|].
  simpl. by rewrite IH.
Qed.

Lemma for_records_nil_r file_pattern storage_options records batches e :
  batched records batches →
  Forall (handled file_pattern storage_options) (concat batches) →
  for_records file_pattern storage_options records e =
  Observed (matching_events file_pattern storage_options (concat batches)) e.
Proof.
  intros Hb Hh.
  rewrite <- (app_nil_r records).
  rewrite (for_records_handled _ _ _ batches) by done.
  unfold prepend. simpl. by rewrite app_nil_r.
Qed.

Lemma batched_take records batches n :
  batched records batches → batched (take n records) (take n batches).
Proof. apply Forall2_take. Qed.

Lemma Forall_concat_take {A} (P : A → Prop) (ls : list (list A)) n :
  Forall P (concat ls) → Forall P (concat (take n ls)).
Proof.
  revert n. induction ls as [|l ls IH]; intros [|n]; simpl; try done.
  intros [??]%Forall_app. apply Forall_app. auto.
Qed.

(** Unfolding [file_generator] once the record generator is known. *)
Lemma file_generator_unfold `{!Transport} endpoint bucket file_pattern
    options records e :
  _record_generator endpoint bucket (default ∅ options) = Observed records e →
  file_generator endpoint bucket file_pattern options =
  for_records file_pattern (default ∅ options) records e.
Proof.
  unfold file_generator. destruct options as [d|]; simpl; by intros ->.
Qed.

(** C1 (amended).  When every entry of the notifications received carries
    a bucket name and a key, so that its key fits the pattern or does not,
    and [UPath] builds the location of every entry whose key fits,
    [file_generator] yields exactly the events of the matching entries, as
    many as there are entries whose key fits, in the order of the entries
    within and across notifications, and ends as its source does; after
    the first [n] notifications exactly the events of their entries have
    been yielded. *)
Theorem file_generator_matching_in_order `{!Transport} endpoint bucket
    file_pattern options records batches e :
  _record_generator endpoint bucket (default ∅ options) = Observed records e →
  batched records batches →
  Forall (handled file_pattern (default ∅ options)) (concat batches) →
  let out := file_generator endpoint bucket file_pattern options in
  out = Observed (matching_events file_pattern (default ∅ options)
                    (concat batches)) e
  ∧ length (yields out) =
      length (filter (fun item => is_matching file_pattern item = true)
                     (concat batches))
  ∧ ∀ n, for_records file_pattern (default ∅ options) (take n records) Pending
         = Observed (matching_events file_pattern (default ∅ options)
                       (concat (take n batches))) Pending.
Proof.
  intros Hsrc Hb Hh out.
  assert (out = Observed (matching_events file_pattern (default ∅ options)
                            (concat batches)) e) as Hout.
  { unfold out. rewrite (file_generator_unfold _ _ _ _ _ _ Hsrc).
    by apply for_records_nil_r. }
  split; [done|]. split.
  - rewrite Hout. simpl. by apply length_matching_events.
  - intros n. apply for_records_nil_r.
    + by apply batched_take.
    + by apply Forall_concat_take.
Qed.

(** Congruence of the outer loop in what comes after a common prefix. *)
Lemma for_records_app_cong file_pattern storage_options records
    rest1 rest2 e1 e2 :
  for_records file_pattern storage_options rest1 e1 =
  for_records file_pattern storage_options rest2 e2 →
  for_records file_pattern storage_options (records ++ rest1) e1 =
  for_records file_pattern storage_options (records ++ rest2) e2.
Proof.
  intros Heq. induction records as [|record records IH]; [done|].
  simpl. destruct (record_items record); [|done]. by rewrite IH.
Qed.

(** C2 (amended).  An entry from which the bucket name or the object key
    cannot be read ends the run with the exception of the failed lookup
    ([KeyError] for a missing field): the events of the matching entries
    before it have been yielded, and neither the rest of its notification
    nor any later notification is processed. *)
Theorem file_generator_malformed_entry_raises `{!Transport} endpoint bucket
    file_pattern options before batches record later items1 bad items2 e
    err :
  _record_generator endpoint bucket (default ∅ options)
    = Observed (before ++ record :: later) e →
  batched before batches →
  Forall (handled file_pattern (default ∅ options)) (concat batches) →
  record_items record = Ret (items1 ++ bad :: items2) →
  Forall (handled file_pattern (default ∅ options)) items1 →
  entry_fields bad = Raise err →
  file_generator endpoint bucket file_pattern options =
  Observed (matching_events file_pattern (default ∅ options)
              (concat batches ++ items1))
           (Raised err).
Proof.
  intros Hsrc Hb Hh Hr Hh1 Hbad.
  rewrite (file_generator_unfold _ _ _ _ _ _ Hsrc).
  rewrite (for_records_handled _ _ _ batches) by done.
  simpl. rewrite Hr, for_items_app, for_items_handled by done.
  rewrite for_items_cons. unfold classify. rewrite Hbad.
  unfold matching_events, prepend, raised, finished. simpl.
  by rewrite omap_app, !app_nil_r.
Qed.

(** Stepping over a mismatch. *)
Lemma for_records_skip file_pattern storage_options before record record'
    later items1 item items2 e :
  record_items record = Ret (items1 ++ item :: items2) →
  record_items record' = Ret (items1 ++ items2) →
  is_nomatch file_pattern item = true →
  for_records file_pattern storage_options (before ++ record :: later) e =
  for_records file_pattern storage_options (before ++ record' :: later) e.
Proof.
  intros Hr Hr' Hno.
  apply for_records_app_cong. simpl. rewrite Hr, Hr'.
  rewrite !for_items_app, for_items_cons.
  apply is_nomatch_spec in Hno as (n & k & Hf & Hp).
  unfold classify. by rewrite Hf, Hp.
Qed.

(** C4.  An entry whose key does not fit the pattern ([parse_metadata]
    raises [ValueError]) is skipped and nothing else.  The run is the one
    the same notifications give without that entry, events and ending
    alike; and when the other entries are matches and mismatches, the run
    goes on past the entry: it yields the events of the matching entries
    before and after it, in its notification and in the later ones, and
    ends as its source does, with no exception of its own. *)
Theorem file_generator_skips_nomatch (T1 T2 : Transport) endpoint bucket
    file_pattern options before record record' later items1 item items2 e :
  @_record_generator T1 endpoint bucket (default ∅ options)
    = Observed (before ++ record :: later) e →
  @_record_generator T2 endpoint bucket (default ∅ options)
    = Observed (before ++ record' :: later) e →
  record_items record = Ret (items1 ++ item :: items2) →
  record_items record' = Ret (items1 ++ items2) →
  is_nomatch file_pattern item = true →
  @file_generator _ _ _ T1 endpoint bucket file_pattern options =
  @file_generator _ _ _ T2 endpoint bucket file_pattern options
  ∧ ∀ batches1 batches2,
      batched before batches1 → batched later batches2 →
      Forall (handled file_pattern (default ∅ options))
             (concat batches1 ++ items1 ++ items2 ++ concat batches2) →
      @file_generator _ _ _ T1 endpoint bucket file_pattern options =
      Observed (matching_events file_pattern (default ∅ options)
                  (concat batches1 ++ items1 ++ items2 ++ concat batches2))
               e.
Proof.
  intros Hs1 Hs2 Hr Hr' Hno.
  rewrite (file_generator_unfold _ _ _ _ _ _ Hs1).
  rewrite (file_generator_unfold _ _ _ _ _ _ Hs2).
  rewrite (for_records_skip _ _ _ _ _ _ _ _ _ _ Hr Hr' Hno).
  split; [done|]. intros batches1 batches2 Hb1 Hb2 Hh.
  assert (concat (batches1 ++ (items1 ++ items2) :: batches2)
          = concat batches1 ++ items1 ++ items2 ++ concat batches2) as Hc.
  { rewrite concat_app. simpl. by rewrite <- app_assoc. }
  rewrite <- Hc in *. apply for_records_nil_r; [|done].
  apply Forall2_app; [done|]. by constructor.
Qed.

End generator.

(** ** What the output depends on *)

Section dependence.
Context `{!Formatter, !Trollsift, !Pathlib}.
Implicit Types (file_pattern : option string) (storage_options : dict).
Implicit Types (records : list pyval) (after : observed event).

Lemma for_items_agree file_pattern storage_options items1 items2 after :
  Forall2 entry_agree items1 items2 →
  for_items file_pattern storage_options items1 after =
  for_items file_pattern storage_options items2 after.
Proof.
  induction 1 as [|a b items1 items2 (fields & Ha & Hb) _ IH]; [done|].
  rewrite !for_items_cons. unfold classify. by rewrite Ha, Hb, IH.
Qed.

Lemma for_records_agree file_pattern storage_options records1 records2 e :
  Forall2 record_agree records1 records2 →
  for_records file_pattern storage_options records1 e =
  for_records file_pattern storage_options records2 e.
Proof.
  induction 1 as [|r1 r2 records1 records2 (l1 & l2 & Hr1 & Hr2 & Hl) _ IH];
    [done|].
  simpl. rewrite Hr1, Hr2, IH. by apply for_items_agree.
Qed.

Lemma yields_for_items file_pattern storage_options items after1 after2 :
  yields after1 = yields after2 →
  yields (for_items file_pattern storage_options items after1) =
  yields (for_items file_pattern storage_options items after2).
Proof.
  intros Hafter. induction items as [|item items IH]; [done|].
  rewrite !for_items_cons.
  destruct (classify file_pattern storage_options item); try done.
  simpl. by rewrite IH.
Qed.

Lemma yields_for_records file_pattern storage_options records e1 e2 :
  yields (for_records file_pattern storage_options records e1) =
  yields (for_records file_pattern storage_options records e2).
Proof.
  induction records as [|record records IH]; [done|].
  simpl. destruct (record_items record); [|done].
  by apply yields_for_items.
Qed.

(** C7.  Two runs whose notifications agree, entry for entry, on the bucket
    name and the object key yield the same sequence of events, whatever the
    other fields of the entries and of the notifications hold; when the two
    sources also end alike, the runs are equal altogether. *)
Theorem file_generator_reads_only_name_and_key (T1 T2 : Transport)
    endpoint1 bucket1 endpoint2 bucket2 file_pattern options
    records1 records2 e1 e2 :
  @_record_generator T1 endpoint1 bucket1 (default ∅ options)
    = Observed records1 e1 →
  @_record_generator T2 endpoint2 bucket2 (default ∅ options)
    = Observed records2 e2 →
  Forall2 record_agree records1 records2 →
  yields (@file_generator _ _ _ T1 endpoint1 bucket1 file_pattern options) =
  yields (@file_generator _ _ _ T2 endpoint2 bucket2 file_pattern options)
  ∧ (e1 = e2 →
     @file_generator _ _ _ T1 endpoint1 bucket1 file_pattern options =
     @file_generator _ _ _ T2 endpoint2 bucket2 file_pattern options).
Proof.
  intros Hs1 Hs2 Hagree.
  rewrite (file_generator_unfold _ _ _ _ _ _ Hs1).
  rewrite (file_generator_unfold _ _ _ _ _ _ Hs2).
  split.
  - rewrite (for_records_agree _ _ _ _ e1 Hagree).
    apply yields_for_records.
  - intros ->. by apply for_records_agree.
Qed.

Lemma for_items_elem file_pattern storage_options items after ev :
  ev ∈ yields (for_items file_pattern storage_options items after) →
  (∃ item n k, item ∈ items ∧ entry_fields item = Ret (n, k) ∧
               parse_metadata file_pattern k = Ret ev.2 ∧
               object_path n k storage_options = Ret ev.1)
  ∨ ev ∈ yields after.
Proof.
  induction items as [|item items IH]; [by right|].
  rewrite for_items_cons.
  destruct (classify file_pattern storage_options item)
    as [ev'| |e|e|e] eqn:Hc.
  - simpl. intros [->|Hin]%elem_of_cons.
    + left. apply classify_match_inv in Hc as (n & k & Hf & Hp & Hl).
      exists item, n, k. split; [left|done].
    + destruct (IH Hin) as [(it & n & k & Hit & Hrest)|Hafter]; [|by right].
      left. exists it, n, k. split; [by right|done].
  - intros Hin.
    destruct (IH Hin) as [(it & n & k & Hit & Hrest)|Hafter]; [|by right].
    left. exists it, n, k. split; [by right|done].
  - simpl. by intros ?%elem_of_nil.
  - simpl. by intros ?%elem_of_nil.
  - simpl. by intros ?%elem_of_nil.
Qed.

Lemma for_records_elem file_pattern storage_options records e ev :
  ev ∈ yields (for_records file_pattern storage_options records e) →
  ∃ record items item n k,
    record ∈ records ∧ record_items record = Ret items ∧ item ∈ items ∧
    entry_fields item = Ret (n, k) ∧
    parse_metadata file_pattern k = Ret ev.2 ∧
    object_path n k storage_options = Ret ev.1.
Proof.
  induction records as [|record records IH].
  - simpl. by intros ?%elem_of_nil.
  - simpl. destruct (record_items record) as [items|err] eqn:Hr.
    + intros [(item & n & k & Hit & Hrest)|Hafter]%for_items_elem.
      * exists record, items, item, n, k. split; [left|done].
      * destruct (IH Hafter) as (r & its & it & n & k & Hin & Hrest).
        exists r, its, it, n, k. split; [by right|done].
    + simpl. by intros ?%elem_of_nil.
Qed.

Lemma matching_events_locations file_pattern storage_options
    (entries : list pyval) :
  Forall (handled file_pattern storage_options) entries →
  Forall2 (fun item ev =>
             ∃ n k, entry_fields item = Ret (n, k)
                    ∧ object_path n k storage_options = Ret ev.1
                    ∧ parse_metadata file_pattern k = Ret ev.2)
          (filter (fun item => is_matching file_pattern item = true) entries)
          (matching_events file_pattern storage_options entries).
Proof.
  unfold matching_events.
  induction 1 as [|item entries Hitem _ IH]; [constructor|].
  rewrite filter_cons. simpl. revert Hitem.
  unfold handled, matched, is_matching, is_nomatch, locatable, classify.
  destruct (entry_fields item) as [[n k]|e] eqn:Hf.
  - destruct (parse_metadata file_pattern k) as [md|[]] eqn:Hp.
    + destruct (object_path n k storage_options) as [path|e] eqn:Hl.
      * intros _. rewrite decide_True by done. simpl.
        constructor; [|exact IH]. by exists n, k.
      * by intros [[_ ?]|?].
    + by intros [[? _]|?].
    + by intros [[? _]|?].
    + intros _. by rewrite decide_False.
    + by intros [[? _]|?].
  - by intros [[? _]|?].
Qed.

(** C9 (amended).  Every location yielded is what the constructor of
    [UPath] returned for the text [s3://<bucket name>/<object key>] of an
    entry received, called with exactly the storage options of the caller
    (none when they are absent) as its keyword arguments, and it is paired
    with the metadata of that key; two endpoints from which the same
    records are received give the same run; and when the entries received
    are matches and mismatches, every entry whose key fits has its
    location yielded, in order. *)
Theorem file_generator_locations `{!Transport} endpoint bucket file_pattern
    options :
  (∀ ev,
     ev ∈ yields (file_generator endpoint bucket file_pattern options) →
     ∃ record items item n k,
       record ∈ yields (_record_generator endpoint bucket (default ∅ options))
       ∧ record_items record = Ret items ∧ item ∈ items
       ∧ entry_fields item = Ret (n, k)
       ∧ new_UPath ("s3://" +:+ format_field n +:+ "/" +:+ format_field k)
                   (default ∅ options) = Ret ev.1
       ∧ parse_metadata file_pattern k = Ret ev.2)
  ∧ (∀ endpoint',
       _record_generator endpoint' bucket (default ∅ options)
         = _record_generator endpoint bucket (default ∅ options) →
       file_generator endpoint' bucket file_pattern options
         = file_generator endpoint bucket file_pattern options)
  ∧ (∀ batches,
       batched (yields (_record_generator endpoint bucket (default ∅ options)))
               batches →
       Forall (handled file_pattern (default ∅ options)) (concat batches) →
       Forall2 (fun item ev =>
                  ∃ n k,
                    entry_fields item = Ret (n, k)
                    ∧ new_UPath ("s3://" +:+ format_field n +:+ "/"
                                         +:+ format_field k)
                                (default ∅ options) = Ret ev.1
                    ∧ parse_metadata file_pattern k = Ret ev.2)
               (filter (fun item => is_matching file_pattern item = true)
                       (concat batches))
               (yields (file_generator endpoint bucket file_pattern options))).
Proof.
  split; [|split].
  - intros ev. unfold file_generator.
    replace (match options with Some d => d | None => ∅ end)
      with (default ∅ options) by by destruct options.
    intros (record & items & item & n & k & Hrec & Hits & Hit & Hf & Hp & Hl)
      %for_records_elem.
    by exists record, items, item, n, k.
  - intros endpoint' Heq. unfold file_generator.
    replace (match options with Some d => d | None => ∅ end)
      with (default ∅ options) by by destruct options.
    by rewrite Heq.
  - intros batches Hb Hh. unfold file_generator.
    replace (match options with Some d => d | None => ∅ end)
      with (default ∅ options) by by destruct options.
    rewrite (for_records_nil_r _ _ _ batches) by done.
    by apply matching_events_locations.
Qed.

End dependence.

(** ** Absent pattern, record generator and client *)

Section backend.
Context `{!Formatter, !Trollsift, !Pathlib}.
Implicit Types (file_pattern : option string) (storage_options : dict).

Lemma parse_metadata_no_pattern file_pattern key :
  file_pattern = None ∨ file_pattern = Some "" →
  parse_metadata file_pattern key = Ret ∅.
Proof. by intros [-> | ->]. Qed.

Lemma well_formed_handled file_pattern storage_options item :
  file_pattern = None ∨ file_pattern = Some "" →
  is_malformed item = false → locatable storage_options item = true →
  handled file_pattern storage_options item.
Proof.
  intros Hp Hw Hl. left. split; [|done].
  revert Hw. unfold is_malformed, is_matching.
  destruct (entry_fields item) as [[n k]|]; [|done].
  by rewrite parse_metadata_no_pattern.
Qed.

Lemma matching_events_no_pattern file_pattern storage_options entries :
  file_pattern = None ∨ file_pattern = Some "" →
  Forall (fun item => is_malformed item = false) entries →
  Forall (fun item => locatable storage_options item = true) entries →
  Forall2 (fun item ev =>
             ∃ n k, entry_fields item = Ret (n, k) ∧
                    object_path n k storage_options = Ret ev.1 ∧ ev.2 = ∅)
          entries (matching_events file_pattern storage_options entries).
Proof.
  intros Hp Hw. unfold matching_events.
  induction Hw as [|item entries Hw _ IH]; [constructor|].
  intros [Hl Hls]%Forall_cons.
  simpl. unfold matched at 1, classify. revert Hw Hl.
  unfold is_malformed, locatable.
  destruct (entry_fields item) as [[n k]|] eqn:Hf; [|done]. intros _.
  rewrite parse_metadata_no_pattern by done.
  destruct (object_path n k storage_options) as [path|] eqn:Ho; [|done].
  intros _. simpl. constructor; [|by apply IH]. by exists n, k.
Qed.

(** C3 (amended).  With an absent or empty pattern the metadata
    extraction accepts every key and returns the empty mapping, and
    [file_generator] yields, for entries that name a bucket and a key and
    whose location [UPath] builds, one event per entry in order, each with
    the location built for its entry and empty metadata. *)
Theorem no_pattern_accepts_every_key `{!Transport} endpoint bucket
    file_pattern options records batches e :
  file_pattern = None ∨ file_pattern = Some "" →
  _record_generator endpoint bucket (default ∅ options) = Observed records e →
  batched records batches →
  Forall (fun item => is_malformed item = false) (concat batches) →
  Forall (fun item => locatable (default ∅ options) item = true)
         (concat batches) →
  let out := file_generator endpoint bucket file_pattern options in
  (∀ key, parse_metadata file_pattern key = Ret ∅)
  ∧ Forall2 (fun item ev =>
               ∃ n k, entry_fields item = Ret (n, k) ∧
                      object_path n k (default ∅ options) = Ret ev.1 ∧
                      ev.2 = ∅)
            (concat batches) (yields out)
  ∧ length (yields out) = length (concat batches)
  ∧ ending_of out = e.
Proof.
  intros Hp Hsrc Hb Hw Hl out.
  assert (out = Observed (matching_events file_pattern (default ∅ options)
                            (concat batches)) e) as ->.
  { unfold out. rewrite (file_generator_unfold _ _ _ _ _ _ Hsrc).
    apply for_records_nil_r; [done|].
    apply Forall_forall. intros item Hin.
    apply well_formed_handled; [done| |].
    - by apply (proj1 (Forall_forall _ _) Hw).
    - by apply (proj1 (Forall_forall _ _) Hl). }
  pose proof (matching_events_no_pattern file_pattern (default ∅ options)
                (concat batches) Hp Hw Hl) as Hall.
  split; [intros key; by apply parse_metadata_no_pattern|].
  split; [exact Hall|]. split; [|done].
  simpl. symmetry. by eapply Forall2_length.
Qed.

(** C8.  Once its client is built, the record generator is the
    subscription opened on the bucket with the events filter
    [["s3:ObjectCreated:*"]]: the same events in the same order, and it is
    exhausted exactly when the subscription is; when the constructor of
    the client raises, so does the record generator. *)
Theorem record_generator_is_subscription `{!Transport} endpoint bucket
    storage_options :
  let generator := _record_generator endpoint bucket storage_options in
  match minio_client endpoint storage_options with
  | Ret client =>
      let subscription :=
        listen_bucket_notification client bucket ["s3:ObjectCreated:*"] in
      yields generator = yields subscription
      ∧ ending_of generator = ending_of subscription
      ∧ (ending_of generator = Exhausted ↔ ending_of subscription = Exhausted)
      ∧ ∀ i, yields generator !! i = yields subscription !! i
  | Raise e => generator = raised e
  end.
Proof.
  intros generator. unfold generator, _record_generator, object_created.
  destruct (minio_client endpoint storage_options) as [client|e]; [|done].
  cbv zeta. rewrite yield_each_observed.
  by destruct (listen_bucket_notification client bucket
                 ["s3:ObjectCreated:*"]).
Qed.

(** C10.  Absent storage options are the empty mapping; [file_generator]
    asks for its client with [AWSConfigProvider] credentials for the
    profile exactly when the storage options hold the key [profile], and
    with no credentials otherwise, and runs its loops over the subscription
    of that client. *)
Theorem client_credentials_from_profile `{!Transport} endpoint bucket
    file_pattern options :
  let storage_options := default ∅ options in
  file_generator endpoint bucket file_pattern None
    = file_generator endpoint bucket file_pattern (Some ∅)
  ∧ file_generator endpoint bucket file_pattern options
    = match new_Minio endpoint
              (AWSConfigProvider <$> storage_options !! "profile") with
      | Raise err => raised err
      | Ret client =>
          let subscription :=
            listen_bucket_notification client bucket ["s3:ObjectCreated:*"]
          in
          for_records file_pattern storage_options
            (yields subscription) (ending_of subscription)
      end
  ∧ profile_credentials storage_options
    = AWSConfigProvider <$> storage_options !! "profile"
  ∧ (is_Some (profile_credentials storage_options)
     ↔ "profile" ∈ dom storage_options)
  ∧ (profile_credentials storage_options = None
     ↔ "profile" ∉ dom storage_options).
Proof.
  intros storage_options.
  assert (profile_credentials storage_options
          = AWSConfigProvider <$> storage_options !! "profile") as Hc.
  { unfold profile_credentials.
    by destruct (storage_options !! "profile"). }
  split; [done|]. split.
  { unfold file_generator.
    replace (match options with Some d => d | None => ∅ end)
      with storage_options by by destruct options.
    unfold _record_generator, minio_client, object_created. rewrite Hc.
    destruct (new_Minio endpoint
                (AWSConfigProvider <$> storage_options !! "profile"));
      [|done].
    by rewrite yield_each_observed. }
  split; [done|]. rewrite Hc, elem_of_dom. split.
  - rewrite fmap_is_Some. done.
  - rewrite fmap_None, eq_None_not_Some. done.
Qed.

End backend.

(** ** The messages of the publisher *)

Section messages.
Context `{!Filesystem}.

Lemma build_message_url cfg location metadata :
  msg_data (build_message cfg (location, metadata)) !! url_key
  = Some (VStr (urlpath location)).
Proof.
  unfold build_message. simpl.
  destruct (filesystem_descriptor location).
  - rewrite lookup_insert_ne by done. apply lookup_insert_eq.
  - apply lookup_insert_eq.
Qed.

Lemma build_message_other cfg location metadata k :
  k ≠ url_key → k ≠ fs_key →
  msg_data (build_message cfg (location, metadata)) !! k
  = (metadata ∪ data cfg) !! k.
Proof.
  intros Hu Hf. unfold build_message. simpl.
  destruct (filesystem_descriptor location).
  - by rewrite !lookup_insert_ne.
  - by rewrite lookup_insert_ne.
Qed.

(** C5.  In the data of a message the resolved address, stored last, is
    what the address key holds, and the descriptor what the descriptor key
    holds, whatever the static data and the metadata say; under any other
    name a field of the extracted metadata wins over a static field of the
    same name, and a static field stays where the metadata have none. *)
Theorem build_message_precedence cfg location metadata :
  let d := msg_data (build_message cfg (location, metadata)) in
  d !! url_key = Some (VStr (urlpath location))
  ∧ (∀ descriptor, filesystem_descriptor location = Some descriptor →
                   d !! fs_key = Some descriptor)
  ∧ (∀ k v, k ≠ url_key → k ≠ fs_key →
            metadata !! k = Some v → d !! k = Some v)
  ∧ (∀ k, k ≠ url_key → k ≠ fs_key →
          metadata !! k = None → d !! k = data cfg !! k).
Proof.
  intros d. split; [apply build_message_url|]. split; [|split].
  - intros descriptor Hd. unfold d, build_message. simpl.
    rewrite Hd. apply lookup_insert_eq.
  - intros k v Hu Hf Hk. unfold d.
    rewrite build_message_other by done.
    by apply lookup_union_Some_l.
  - intros k Hu Hf Hk. unfold d.
    rewrite build_message_other by done.
    by apply lookup_union_r.
Qed.

Lemma publish_events_patched cfg (events : list event) e sent :
  @publish_events _ unit _ patched_publisher cfg events e sent
  = (sent ++ (build_message cfg <$> events), e).
Proof.
  revert sent. induction events as [|ev events IH]; intros sent; simpl.
  - by rewrite app_nil_r.
  - rewrite IH. by rewrite <- app_assoc.
Qed.

(** The record generator under the mock of the tests. *)
Lemma record_generator_fake_listen records endpoint bucket storage_options :
  @_record_generator (fake_listen records) endpoint bucket storage_options
  = Observed records Exhausted.
Proof.
  unfold _record_generator, minio_client.
  cbn [new_Minio listen_bucket_notification fake_listen yields ending_of].
  apply yield_each_observed.
Qed.

(** Every notification of the fixture has one entry, of the bucket
    [viirs-data] and with the key at its position. *)
Lemma fixture_shape :
  Forall2 (fun record key =>
             ∃ item, record_items record = Ret [item] ∧
                     entry_fields item = Ret (VStr "viirs-data", VStr key))
          records fixture_keys.
Proof.
  unfold records, fixture_keys.
  repeat (constructor; [eexists; split; vm_compute; reflexivity|]).
  constructor.
Qed.

(** The run, without pattern, over notifications of one entry each whose
    locations are built. *)
Lemma for_records_single_entries `{!Formatter, !Trollsift, !Pathlib}
    storage_options records (keys : list string) e :
  Forall2 (fun record key =>
             ∃ item, record_items record = Ret [item] ∧
                     entry_fields item = Ret (VStr "viirs-data", VStr key))
          records keys →
  Forall (fun key => builds_address storage_options
                       ("s3://viirs-data/" +:+ key)) keys →
  ∃ paths,
    Forall2 (fun key path => urlpath path = "s3://viirs-data/" +:+ key)
            keys paths
    ∧ for_records None storage_options records e
      = Observed ((fun path => (path, ∅)) <$> paths) e.
Proof.
  induction 1 as [|record key records keys (item & Hr & Hf) _ IH].
  - intros _. by exists [].
  - intros [(path & Hnew & Hurl) Hkeys]%Forall_cons.
    destruct (IH Hkeys) as (paths & Hpaths & Hrun).
    exists (path :: paths). split; [by constructor|].
    simpl. rewrite Hr. simpl. rewrite Hf. simpl.
    unfold object_path, object_url, format_field.
    change ("s3://" +:+ "viirs-data" +:+ "/" +:+ key)
      with ("s3://viirs-data/" +:+ key).
    by rewrite Hnew, Hrun.
Qed.

Lemma build_message_static cfg location :
  delete fs_key (delete url_key
    (msg_data (build_message cfg (location, ∅))))
  = delete fs_key (delete url_key (data cfg)).
Proof.
  apply map_eq. intros k.
  destruct (decide (k = fs_key)) as [->|Hf].
  { by rewrite !lookup_delete_eq. }
  rewrite !(lookup_delete_ne _ fs_key) by done.
  destruct (decide (k = url_key)) as [->|Hu].
  { by rewrite !lookup_delete_eq. }
  rewrite !(lookup_delete_ne _ url_key) by done.
  rewrite build_message_other by done.
  by rewrite (left_id_L ∅ (∪)).
Qed.

(** C6.  On the fixture of fourteen notifications, with no pattern, a
    sink that keeps what it is sent and a [UPath] that builds the fourteen
    locations for their addresses, [file_publisher] ends with the source
    exhausted and fourteen messages sent, one per notification in the order
    of arrival: the address of each is [s3://viirs-data/] followed by the
    key of its notification, the first being that of the SVM13 object;
    subject and type are those of the message configuration, and apart
    from the address and descriptor keys the data are its static data. *)
Theorem publish_reference_fixture `{!Formatter, !Trollsift, !Pathlib}
    endpoint bucket options cfg :
  Forall (fun key => builds_address (default ∅ options)
                       ("s3://viirs-data/" +:+ key)) fixture_keys →
  let run :=
    @file_publisher _ _ _ (fake_listen records) _ unit _ patched_publisher
      (FsConfig endpoint bucket None options) () cfg in
  run.2 = Exhausted
  ∧ length run.1 = 14
  ∧ (fun m => msg_data m !! url_key) <$> run.1
    = (fun key => Some (VStr ("s3://viirs-data/" +:+ key))) <$> fixture_keys
  ∧ (fun m => msg_data m !! url_key) <$> head run.1
    = Some (Some (VStr ("s3://viirs-data/sdr/SVM13_npp_d20240408_t1006227_" +:+
                        "e1007469_b64498_c20240408102334392250_cspp_dev.h5")))
  ∧ Forall (fun m =>
              msg_subject m = subject cfg ∧ msg_atype m = atype cfg ∧
              delete fs_key (delete url_key (msg_data m))
              = delete fs_key (delete url_key (data cfg)))
           run.1.
Proof.
  intros Hbuilt run.
  destruct (for_records_single_entries (default ∅ options) records
              fixture_keys Exhausted fixture_shape Hbuilt)
    as (paths & Hpaths & Hrun).
  assert (run = ((fun path => build_message cfg (path, ∅)) <$> paths,
                 Exhausted)) as ->.
  { unfold run, file_publisher, file_publisher_from_generator.
    cbn [endpoint_url bucket_name file_pattern storage_options].
    rewrite (file_generator_unfold _ _ _ _ records Exhausted)
      by apply record_generator_fake_listen.
    rewrite Hrun. cbn [yields ending_of].
    rewrite publish_events_patched. simpl.
    by rewrite <- list_fmap_compose. }
  cbn [fst snd].
  assert ((fun m => msg_data m !! url_key)
            <$> ((fun path => build_message cfg (path, ∅)) <$> paths)
          = (fun key => Some (VStr ("s3://viirs-data/" +:+ key)))
            <$> fixture_keys) as Hurls.
  { clear Hrun. rewrite <- list_fmap_compose.
    induction Hpaths as [|key path keys paths Hurl _ IH]; [done|].
    rewrite !fmap_cons. f_equal; [|by apply IH; inversion Hbuilt].
    unfold compose. by rewrite build_message_url, Hurl. }
  split; [done|]. split.
  { rewrite length_fmap. apply Forall2_length in Hpaths.
    by rewrite <- Hpaths. }
  split; [exact Hurls|]. split.
  { clear Hurls Hrun. unfold fixture_keys in Hpaths.
    inversion Hpaths as [|key path keys paths' Hurl _]; subst.
    rewrite fmap_cons.
    transitivity (Some (msg_data (build_message cfg (path, ∅)) !! url_key));
      [reflexivity|].
    by rewrite build_message_url, Hurl. }
  apply Forall_fmap, Forall_forall. intros path _. simpl.
  split; [done|]. split; [done|]. apply build_message_static.
Qed.

End messages.

(** ** Runs on concrete notifications *)

Section runs.
#[local] Existing Instances plain_formatter prefix_parser s3_upath
  s3_filesystem.

Ltac all_entries :=
  repeat (constructor;
          [first [left; split; reflexivity | right; reflexivity
                 | reflexivity]|]);
  try constructor.

(** C1, as stated, fails: of two entries, one without its key and one that
    matches, the matching one is not yielded; and an entry whose key fits
    is not yielded when [UPath] refuses its address. *)
Lemma malformed_entry_loses_matches :
  let entries := [entry_without_key "tmp"; entry "tmp" "a.tif"] in
  let out :=
    @file_generator _ _ _ (fake_listen [notification entries])
      "someendpoint" "tmp" None None in
  let refused := [entry "[" "a.tif"] in
  let out' :=
    @file_generator _ _ _ (fake_listen [notification refused])
      "someendpoint" "tmp" None None in
  Forall (fun item => is_matching None item = true
                      ∨ is_nomatch None item = true
                      ∨ is_malformed item = true) entries
  ∧ length (filter (fun item => is_matching None item = true) entries) = 1
  ∧ length (yields out) = 0
  ∧ Forall (fun item => is_matching None item = true) refused
  ∧ length (filter (fun item => is_matching None item = true) refused) = 1
  ∧ out' = Observed [] (Raised ValueError).
Proof.
  split; [|split; [reflexivity|split; [reflexivity|]]].
  - constructor; [right; right; reflexivity|].
    constructor; [left; reflexivity|].
    constructor.
  - split; [|split; reflexivity].
    constructor; [reflexivity|constructor].
Qed.

Lemma file_generator_matching_in_order_witness :
  let out :=
    @file_generator _ _ _ (fake_listen example_records)
      "someendpoint" "tmp" (Some "a") None in
  out = Observed (matching_events (Some "a") ∅ (concat example_batches))
                 Exhausted
  ∧ length (yields out) =
      length (filter (fun item => is_matching (Some "a") item = true)
                     (concat example_batches))
  ∧ ∀ n, for_records (Some "a") ∅ (take n example_records) Pending
         = Observed (matching_events (Some "a") ∅
                       (concat (take n example_batches))) Pending.
Proof.
  apply (@file_generator_matching_in_order _ _ _
           (fake_listen example_records)
           "someendpoint" "tmp" (Some "a") None example_records
           example_batches Exhausted).
  - reflexivity.
  - unfold batched. all_entries.
  - simpl. all_entries.
Defined.

(** C2, as stated, fails: the entry without its key does not only drop
    out; the entries and notifications after it are lost with it. *)
Lemma malformed_entry_ends_stream :
  is_malformed (entry_without_key "tmp") = true
  ∧ @file_generator _ _ _
      (fake_listen [mixed_record_without_mismatch; last_record])
      "someendpoint" "tmp" None None
    = Observed [tmp_event "ab.tif"; tmp_event "ac.tif"; tmp_event "ad.tif"]
               Exhausted
  ∧ @file_generator _ _ _ (fake_listen [broken_record; last_record])
      "someendpoint" "tmp" None None
    = Observed [tmp_event "ab.tif"] (Raised (KeyError "key"))
  ∧ @file_generator _ _ _
      (fake_listen [notification [entry_without_bucket_name "ab.tif";
                                  entry "tmp" "ac.tif"];
                    last_record])
      "someendpoint" "tmp" None None
    = Observed [] (Raised (KeyError "name")).
Proof. repeat split; vm_compute; reflexivity. Qed.

Lemma file_generator_malformed_entry_raises_witness :
  @file_generator _ _ _
    (fake_listen [first_record; broken_record; last_record])
    "someendpoint" "tmp" (Some "a") None
  = Observed (matching_events (Some "a") ∅
                (concat [[entry "tmp" "a.tif"]] ++ [entry "tmp" "ab.tif"]))
             (Raised (KeyError "key")).
Proof.
  apply (@file_generator_malformed_entry_raises _ _ _
           (fake_listen [first_record; broken_record; last_record])
           "someendpoint" "tmp" (Some "a") None
           [first_record] [[entry "tmp" "a.tif"]] broken_record
           [last_record] [entry "tmp" "ab.tif"] (entry_without_key "tmp")
           [entry "tmp" "ac.tif"] Exhausted (KeyError "key")).
  - reflexivity.
  - unfold batched. all_entries.
  - simpl. all_entries.
  - reflexivity.
  - all_entries.
  - reflexivity.
Defined.

(** C3, as stated, fails: with no pattern, an entry with a key whose
    address [UPath] refuses gives no event, and neither does the entry
    after it. *)
Lemma unbuildable_location_ends_stream :
  let entries := [entry "[" "a.tif"; entry "tmp" "b.tif"] in
  Forall (fun item => is_malformed item = false) entries
  ∧ Forall (fun item => is_matching None item = true) entries
  ∧ @file_generator _ _ _ (fake_listen [notification entries])
      "someendpoint" "tmp" None None
    = Observed [] (Raised ValueError).
Proof.
  split; [|split; [|reflexivity]].
  - constructor; [reflexivity|]. constructor; [reflexivity|constructor].
  - constructor; [reflexivity|]. constructor; [reflexivity|constructor].
Qed.

Lemma no_pattern_accepts_every_key_witness :
  let out :=
    @file_generator _ _ _ (fake_listen example_records)
      "someendpoint" "tmp" None None in
  (∀ key, parse_metadata None key = Ret ∅)
  ∧ Forall2 (fun item ev =>
               ∃ n k, entry_fields item = Ret (n, k) ∧
                      object_path n k ∅ = Ret ev.1 ∧ ev.2 = ∅)
            (concat example_batches) (yields out)
  ∧ length (yields out) = length (concat example_batches)
  ∧ ending_of out = Exhausted.
Proof.
  apply (@no_pattern_accepts_every_key _ _ _ (fake_listen example_records)
           "someendpoint" "tmp" None None example_records example_batches
           Exhausted).
  - left; reflexivity.
  - reflexivity.
  - unfold batched. all_entries.
  - simpl. all_entries.
  - simpl. all_entries.
Defined.

Lemma file_generator_skips_nomatch_witness :
  @file_generator _ _ _ (fake_listen example_records)
    "someendpoint" "tmp" (Some "a") None
  = Observed [tmp_event "a.tif"; tmp_event "ab.tif"; tmp_event "ac.tif";
              tmp_event "ad.tif"]
             Exhausted.
Proof.
  destruct (@file_generator_skips_nomatch _ _ _
              (fake_listen example_records)
              (fake_listen
                 [first_record; mixed_record_without_mismatch; last_record])
              "someendpoint" "tmp" (Some "a") None
              [first_record] mixed_record mixed_record_without_mismatch
              [last_record] [entry "tmp" "ab.tif"] (entry "tmp" "zz.png")
              [entry "tmp" "ac.tif"] Exhausted) as [_ Hrun];
    [reflexivity ..|].
  rewrite (Hrun [[entry "tmp" "a.tif"]] [[entry "tmp" "ad.tif"]]).
  - reflexivity.
  - unfold batched. all_entries.
  - unfold batched. all_entries.
  - simpl. all_entries.
Defined.

Lemma build_message_precedence_witness :
  let d :=
    msg_data (build_message clashing_settings
                (mkUPath "s3://tmp/a.tif" ∅, clashing_metadata)) in
  d !! "sensor" = Some (VStr "modis")
  ∧ d !! "url" = Some (VStr "s3://tmp/a.tif").
Proof.
  pose proof (build_message_precedence clashing_settings
                (mkUPath "s3://tmp/a.tif" ∅) clashing_metadata)
    as (Hurl & _ & Hmeta & _).
  split.
  - apply Hmeta; [discriminate | discriminate | reflexivity].
  - exact Hurl.
Defined.

Lemma file_generator_reads_only_name_and_key_witness :
  yields (@file_generator _ _ _ (fake_listen [fixture_head])
            "someendpoint" "viirs-data" None None)
  = yields (@file_generator _ _ _ (fake_listen [bare_head])
              "otherendpoint" "viirs-data" None None)
  ∧ (Exhausted = Exhausted →
     @file_generator _ _ _ (fake_listen [fixture_head])
       "someendpoint" "viirs-data" None None
     = @file_generator _ _ _ (fake_listen [bare_head])
         "otherendpoint" "viirs-data" None None).
Proof.
  apply (@file_generator_reads_only_name_and_key _ _ _
           (fake_listen [fixture_head]) (fake_listen [bare_head])
           "someendpoint" "viirs-data" "otherendpoint" "viirs-data"
           None None [fixture_head] [bare_head] Exhausted Exhausted).
  - reflexivity.
  - reflexivity.
  - constructor; [|constructor].
    eexists _, _. split; [reflexivity|]. split; [reflexivity|].
    constructor; [|constructor].
    eexists. split; reflexivity.
Defined.

(** C9, as stated, fails: called with the storage options of the caller,
    [UPath] keeps the keyword [protocol] for itself, and the location
    yielded does not carry it. *)
Lemma location_drops_protocol_option :
  let options : dict := {[ "protocol" := VStr "s3" ]} in
  let out :=
    @file_generator _ _ _ (fake_listen [first_record])
      "someendpoint" "tmp" None (Some options) in
  options !! "protocol" = Some (VStr "s3")
  ∧ out = Observed [(mkUPath "s3://tmp/a.tif" ∅, ∅)] Exhausted
  ∧ (fun ev : event => upath_options ev.1 !! "protocol") <$> yields out
    = [None].
Proof. repeat split; vm_compute; reflexivity. Qed.

Lemma file_generator_locations_witness :
  (∃ record items item n k,
     record ∈ yields (@_record_generator (fake_listen example_records)
                        "someendpoint" "tmp" ∅)
     ∧ record_items record = Ret items ∧ item ∈ items
     ∧ entry_fields item = Ret (n, k)
     ∧ new_UPath ("s3://" +:+ format_field n +:+ "/" +:+ format_field k) ∅
       = Ret (tmp_event "a.tif").1
     ∧ parse_metadata (Some "a") k = Ret (tmp_event "a.tif").2)
  ∧ @file_generator _ _ _ (fake_listen example_records)
      "otherendpoint" "tmp" (Some "a") None
    = @file_generator _ _ _ (fake_listen example_records)
        "someendpoint" "tmp" (Some "a") None
  ∧ Forall2 (fun item ev =>
               ∃ n k,
                 entry_fields item = Ret (n, k)
                 ∧ new_UPath ("s3://" +:+ format_field n +:+ "/"
                                      +:+ format_field k) ∅ = Ret ev.1
                 ∧ parse_metadata (Some "a") k = Ret ev.2)
            (filter (fun item => is_matching (Some "a") item = true)
                    (concat example_batches))
            (yields (@file_generator _ _ _ (fake_listen example_records)
                       "someendpoint" "tmp" (Some "a") None)).
Proof.
  pose proof (@file_generator_locations _ _ _ (fake_listen example_records)
                "someendpoint" "tmp" (Some "a") None) as (Hloc & Hend & Hall).
  split; [|split].
  - apply (Hloc (tmp_event "a.tif")). left.
  - apply (Hend "otherendpoint"). reflexivity.
  - apply (Hall example_batches).
    + unfold batched. all_entries.
    + simpl. all_entries.
Defined.

Lemma record_generator_is_subscription_witness :
  yields (@_record_generator (fake_listen example_records)
            "someendpoint" "tmp" ∅) = example_records
  ∧ ending_of (@_record_generator (fake_listen example_records)
                 "someendpoint" "tmp" ∅) = Exhausted.
Proof.
  pose proof (@record_generator_is_subscription (fake_listen example_records)
                "someendpoint" "tmp" ∅) as (Hy & He & _).
  split; [exact Hy | exact He].
Defined.

(** With a package that shows the credentials of its client, the profile
    of the storage options is seen to reach the client, and no profile to
    give a client without credentials. *)
Lemma client_credentials_from_profile_witness :
  @file_generator _ _ _ telling_minio "someendpoint" "tmp" None
    (Some {[ "profile" := VStr "someprofile" ]})
  = Observed [(mkUPath "s3://tmp/someprofile"
                       {[ "profile" := VStr "someprofile" ]}, ∅)]
             Exhausted
  ∧ @file_generator _ _ _ telling_minio "someendpoint" "tmp" None None
    = Observed [(mkUPath "s3://tmp/<value>" ∅, ∅)] Exhausted.
Proof.
  split.
  - rewrite (proj1 (proj2
      (@client_credentials_from_profile _ _ _ telling_minio
         "someendpoint" "tmp" None
         (Some {[ "profile" := VStr "someprofile" ]})))).
    vm_compute. reflexivity.
  - rewrite (proj1 (proj2
      (@client_credentials_from_profile _ _ _ telling_minio
         "someendpoint" "tmp" None None))).
    vm_compute. reflexivity.
Defined.

Lemma publish_reference_fixture_witness :
  let run :=
    @file_publisher _ _ _ (fake_listen records) _ unit _ patched_publisher
      (FsConfig "someendpoint" "viirs-data" None None) () message_settings in
  run.2 = Exhausted ∧ length run.1 = 14.
Proof.
  destruct (@publish_reference_fixture _ _ _ _ "someendpoint" "viirs-data"
              None message_settings) as (Hend & Hlen & _).
  - unfold fixture_keys.
    repeat (constructor; [eexists; split; vm_compute; reflexivity|]).
    constructor.
  - split; [exact Hend | exact Hlen].
Defined.

(** The assertions of [test_publish_paths] on the first message. *)
Example test_publish_paths :
  let messages :=
    (@file_publisher _ _ _ (fake_listen records) _ unit _ patched_publisher
       (FsConfig "someendpoint" "viirs-data" None None) ()
       message_settings).1 in
  length messages = length records
  ∧ (m ← head messages; msg_data m !! "url")
    = Some (VStr ("s3://viirs-data/sdr/SVM13_npp_d20240408_t1006227_" +:+
                  "e1007469_b64498_c20240408102334392250_cspp_dev.h5"))
  ∧ (m ← head messages; msg_data m !! "sensor") = Some (VStr "viirs").
Proof. repeat split; vm_compute; reflexivity. Qed.

End runs.

(** ** Every run, whatever the entries *)

Section outcomes.
Context `{!Formatter, !Trollsift, !Pathlib}.
Implicit Types (file_pattern : option string) (storage_options : dict).
Implicit Types (records : list pyval) (after : observed event).

Lemma received_entries_cons record records :
  received_entries (record :: records) =
  match record_items record with
  | Ret items => items
  | Raise _ => []
  end ++ received_entries records.
Proof. reflexivity. Qed.

Lemma matching_events_app file_pattern storage_options l1 l2 :
  matching_events file_pattern storage_options (l1 ++ l2) =
  matching_events file_pattern storage_options l1
  ++ matching_events file_pattern storage_options l2.
Proof. apply omap_app. Qed.

(** The inner loop either uses up its entries, all of them matches or
    mismatches, or stops at the first entry of another kind with the
    exception of that entry. *)
Lemma for_items_outcome file_pattern storage_options items :
  (Forall (handled file_pattern storage_options) items ∧
   ∀ after, for_items file_pattern storage_options items after =
            prepend (matching_events file_pattern storage_options items) after)
  ∨ (∃ seen item rest err,
       items = seen ++ item :: rest ∧ Forall (handled file_pattern storage_options) seen ∧
       (classify file_pattern storage_options item = MalformedRecord err ∨
        classify file_pattern storage_options item = ExtractorFailure err ∨
        classify file_pattern storage_options item = LocationFailure err) ∧
       ∀ after, for_items file_pattern storage_options items after =
                Observed (matching_events file_pattern storage_options seen)
                         (Raised err)).
Proof.
  induction items as [|item items IH].
  - left. split; [constructor|]. intros after.
    unfold matching_events. simpl. by rewrite prepend_nil.
  - destruct (classify file_pattern storage_options item)
      as [ev| |err|err|err] eqn:Hc.
    + assert (handled file_pattern storage_options item) as Hh
        by (apply handled_classify; eauto).
      destruct IH as [[Hall Hrun]|(seen & it & rest & err & -> & Hs & Hk & Hrun)].
      * left. split; [by constructor|]. intros after.
        rewrite for_items_cons, Hc, Hrun.
        unfold matching_events at 2. simpl. unfold matched at 1.
        by rewrite Hc.
      * right. exists (item :: seen), it, rest, err.
        split; [done|]. split; [by constructor|]. split; [done|].
        intros after. rewrite for_items_cons, Hc, Hrun.
        unfold matching_events at 2. simpl. unfold matched at 1.
        by rewrite Hc.
    + assert (handled file_pattern storage_options item) as Hh
        by (apply handled_classify; eauto).
      destruct IH as [[Hall Hrun]|(seen & it & rest & err & -> & Hs & Hk & Hrun)].
      * left. split; [by constructor|]. intros after.
        rewrite for_items_cons, Hc, Hrun.
        unfold matching_events at 2. simpl. unfold matched at 1.
        by rewrite Hc.
      * right. exists (item :: seen), it, rest, err.
        split; [done|]. split; [by constructor|]. split; [done|].
        intros after. rewrite for_items_cons, Hc, Hrun.
        unfold matching_events at 2. simpl. unfold matched at 1.
        by rewrite Hc.
    + right. exists [], item, items, err.
      split; [done|]. split; [constructor|]. split; [by left|].
      intros after. by rewrite for_items_cons, Hc.
    + right. exists [], item, items, err.
      split; [done|]. split; [constructor|]. split; [right; by left|].
      intros after. by rewrite for_items_cons, Hc.
    + right. exists [], item, items, err.
      split; [done|]. split; [constructor|]. split; [right; by right|].
      intros after. by rewrite for_items_cons, Hc.
Qed.

(** The outer loop either reads every notification and uses up every
    entry, or stops with an exception after an initial stretch of the
    entries. *)
Lemma for_records_outcome file_pattern storage_options records :
  (Forall (fun record => ∃ items, record_items record = Ret items) records ∧
   Forall (handled file_pattern storage_options) (received_entries records) ∧
   ∀ e, for_records file_pattern storage_options records e =
        Observed (matching_events file_pattern storage_options
                    (received_entries records)) e)
  ∨ (∃ seen err,
       seen `prefix_of` received_entries records ∧
       Forall (handled file_pattern storage_options) seen ∧
       ∀ e, for_records file_pattern storage_options records e =
            Observed (matching_events file_pattern storage_options seen)
                     (Raised err)).
Proof.
  induction records as [|record records IH].
  - left. split; [constructor|]. split; [constructor|]. done.
  - rewrite received_entries_cons. simpl.
    destruct (record_items record) as [items|err] eqn:Hr.
    + destruct (for_items_outcome file_pattern storage_options items)
        as [[Hall Hrun]|(seen & it & rest & err & -> & Hs & _ & Hrun)].
      * destruct IH as [(Hread & Hh & Hrec)|(seen & err & Hpre & Hs & Hrec)].
        -- left. split; [constructor; eauto|].
           split; [by apply Forall_app|]. intros e.
           rewrite Hrun, Hrec. unfold prepend. simpl.
           by rewrite matching_events_app.
        -- right. exists (items ++ seen), err.
           split; [by apply prefix_app|].
           split; [by apply Forall_app|]. intros e.
           rewrite Hrun, Hrec. unfold prepend. simpl.
           by rewrite matching_events_app.
      * right. exists seen, err.
        split; [|split; [done|]].
        -- rewrite <- app_assoc. by apply prefix_app_r.
        -- intros e. apply Hrun.
    + right. exists [], err.
      split; [apply prefix_nil|]. split; [constructor|]. done.
Qed.

(** The outer loop over two stretches of notifications. *)
Lemma for_records_app file_pattern storage_options records1 records2 e :
  for_records file_pattern storage_options (records1 ++ records2) e =
  match ending_of (for_records file_pattern storage_options records1 Pending)
  with
  | Raised _ => for_records file_pattern storage_options records1 Pending
  | _ => prepend
           (yields (for_records file_pattern storage_options records1 Pending))
           (for_records file_pattern storage_options records2 e)
  end.
Proof.
  induction records1 as [|record records1 IH].
  - simpl. by rewrite prepend_nil.
  - simpl. destruct (record_items record) as [items|err]; [|done].
    destruct (for_items_outcome file_pattern storage_options items)
      as [[_ Hrun]|(seen & it & rest & err & _ & _ & _ & Hrun)].
    + rewrite !Hrun, IH. simpl.
      destruct (ending_of
                  (for_records file_pattern storage_options records1 Pending));
        try done; unfold prepend; simpl; by rewrite app_assoc.
    + by rewrite !Hrun.
Qed.

End outcomes.

(** ** Further properties of [file_generator] *)

Section properties.
Context `{!Formatter, !Trollsift, !Pathlib}.
Implicit Types (file_pattern : option string) (storage_options : dict).
Implicit Types (records : list pyval) (batches : list (list pyval)).

Lemma file_generator_for_records `{!Transport} endpoint bucket file_pattern
    options :
  file_generator endpoint bucket file_pattern options =
  for_records file_pattern (default ∅ options)
    (yields (_record_generator endpoint bucket (default ∅ options)))
    (ending_of (_record_generator endpoint bucket (default ∅ options))).
Proof. unfold file_generator. by destruct options. Qed.

(** X1.  Whatever the notifications hold, the events yielded are those
    of the matching entries of an initial stretch of the entries received,
    in the order of the entries: no event comes before that of an earlier
    entry, no entry gives two events, and there are never more events than
    entries. *)
Theorem file_generator_events_of_initial_entries `{!Transport} endpoint
    bucket file_pattern options :
  let received :=
    received_entries
      (yields (_record_generator endpoint bucket (default ∅ options))) in
  let out := file_generator endpoint bucket file_pattern options in
  ∃ seen,
    seen `prefix_of` received
    ∧ Forall (handled file_pattern (default ∅ options)) seen
    ∧ yields out = matching_events file_pattern (default ∅ options) seen
    ∧ (length (yields out) ≤ length received)%nat.
Proof.
  intros received out. unfold out. rewrite file_generator_for_records.
  fold received.
  destruct (for_records_outcome file_pattern (default ∅ options)
              (yields (_record_generator endpoint bucket (default ∅ options))))
    as [(_ & Hh & Hrun)|(seen & err & Hpre & Hh & Hrun)].
  - exists received. rewrite Hrun. simpl.
    split; [done|]. split; [done|]. split; [done|].
    apply length_matching_events_le.
  - exists seen. rewrite Hrun. simpl.
    split; [done|]. split; [done|]. split; [done|].
    etrans; [apply length_matching_events_le|]. by apply prefix_length.
Qed.

(** X2.  A run that is not ended by an exception has dropped nothing but
    mismatches: every notification could be read, every entry was a match
    or a mismatch, the events are those of all the matching entries, and
    the run stands as its source does. *)
Theorem file_generator_unraised_is_complete `{!Transport} endpoint bucket
    file_pattern options :
  let source := _record_generator endpoint bucket (default ∅ options) in
  let out := file_generator endpoint bucket file_pattern options in
  (∀ err, ending_of out ≠ Raised err) →
  ending_of out = ending_of source
  ∧ Forall (fun record => ∃ items, record_items record = Ret items)
           (yields source)
  ∧ Forall (handled file_pattern (default ∅ options))
           (received_entries (yields source))
  ∧ yields out = matching_events file_pattern (default ∅ options)
                   (received_entries (yields source)).
Proof.
  intros source out. unfold out. rewrite file_generator_for_records.
  fold source.
  destruct (for_records_outcome file_pattern (default ∅ options)
              (yields source))
    as [(Hread & Hh & Hrun)|(seen & err & _ & _ & Hrun)].
  - rewrite Hrun. simpl. done.
  - rewrite Hrun. simpl. intros Hno. by destruct (Hno err).
Qed.

(** X3.  The run over a subscription observed in two stretches: when the
    run over the first stretch is ended by an exception, that is the whole
    run; otherwise its events are followed by the run over the second
    stretch. *)
Theorem file_generator_continues (T1 T2 T : Transport) endpoint bucket
    file_pattern options records1 records2 e :
  @_record_generator T1 endpoint bucket (default ∅ options)
    = Observed records1 Pending →
  @_record_generator T2 endpoint bucket (default ∅ options)
    = Observed records2 e →
  @_record_generator T endpoint bucket (default ∅ options)
    = Observed (records1 ++ records2) e →
  @file_generator _ _ _ T endpoint bucket file_pattern options =
  match ending_of (@file_generator _ _ _ T1 endpoint bucket file_pattern options)
  with
  | Raised _ => @file_generator _ _ _ T1 endpoint bucket file_pattern options
  | _ => prepend
           (yields (@file_generator _ _ _ T1 endpoint bucket file_pattern
                      options))
           (@file_generator _ _ _ T2 endpoint bucket file_pattern options)
  end.
Proof.
  intros Hs1 Hs2 Hs12.
  rewrite (file_generator_unfold _ _ _ _ _ _ Hs1).
  rewrite (file_generator_unfold _ _ _ _ _ _ Hs2).
  rewrite (file_generator_unfold _ _ _ _ _ _ Hs12).
  apply for_records_app.
Qed.

(** X4.  Events are never taken back: what has been yielded while the
    subscription was pending is an initial stretch of what is yielded once
    more notifications have arrived, and a run ended by an exception is
    not changed by what arrives later. *)
Theorem file_generator_monotone (T1 T2 : Transport) endpoint bucket
    file_pattern options records later e :
  @_record_generator T1 endpoint bucket (default ∅ options)
    = Observed records Pending →
  @_record_generator T2 endpoint bucket (default ∅ options)
    = Observed (records ++ later) e →
  yields (@file_generator _ _ _ T1 endpoint bucket file_pattern options)
    `prefix_of`
    yields (@file_generator _ _ _ T2 endpoint bucket file_pattern options)
  ∧ (∀ err,
       ending_of (@file_generator _ _ _ T1 endpoint bucket file_pattern options)
         = Raised err →
       @file_generator _ _ _ T2 endpoint bucket file_pattern options
         = @file_generator _ _ _ T1 endpoint bucket file_pattern options).
Proof.
  intros Hs1 Hs2.
  rewrite (file_generator_unfold _ _ _ _ _ _ Hs1).
  rewrite (file_generator_unfold _ _ _ _ _ _ Hs2).
  rewrite for_records_app.
  destruct (ending_of (for_records file_pattern (default ∅ options)
                         records Pending)) eqn:He.
  - split; [by apply prefix_app_r|]. done.
  - split; [by apply prefix_app_r|]. done.
  - split; [done|]. done.
Qed.

End properties.

(** ** Failures and empty notifications *)

Section failures.
Context `{!Formatter, !Trollsift, !Pathlib}.
Implicit Types (file_pattern : option string) (storage_options : dict).
Implicit Types (records : list pyval) (batches : list (list pyval)).

(** A run that stops at a notification, after notifications whose entries
    are all matches or mismatches. *)
Lemma for_records_stops file_pattern storage_options before batches record
    later e err :
  batched before batches →
  Forall (handled file_pattern storage_options) (concat batches) →
  for_records file_pattern storage_options (record :: later) e
    = raised err →
  for_records file_pattern storage_options (before ++ record :: later) e =
  Observed (matching_events file_pattern storage_options (concat batches))
           (Raised err).
Proof.
  intros Hb Hh Hstop.
  rewrite (for_records_handled _ _ _ batches) by done.
  rewrite Hstop. unfold prepend, raised, finished. simpl.
  by rewrite app_nil_r.
Qed.

Lemma entry_fields_not_dict item :
  match item with VDict _ => False | _ => True end →
  entry_fields item = Raise TypeError.
Proof. by destruct item. Qed.

(** X5.  Only [ValueError] is caught: any other exception of the metadata
    extraction ends the run at that entry, after the events of the matching
    entries before it; the rest of the notification and the later
    notifications are not processed. *)
Theorem file_generator_extractor_failure `{!Transport} endpoint bucket
    file_pattern options before batches record later items1 item items2 e
    n k err :
  _record_generator endpoint bucket (default ∅ options)
    = Observed (before ++ record :: later) e →
  batched before batches →
  Forall (handled file_pattern (default ∅ options)) (concat batches) →
  record_items record = Ret (items1 ++ item :: items2) →
  Forall (handled file_pattern (default ∅ options)) items1 →
  entry_fields item = Ret (n, k) →
  parse_metadata file_pattern k = Raise err →
  err ≠ ValueError →
  file_generator endpoint bucket file_pattern options =
  Observed (matching_events file_pattern (default ∅ options)
              (concat batches ++ items1))
           (Raised err).
Proof.
  intros Hsrc Hb Hh Hr Hh1 Hf Hp Herr.
  rewrite (file_generator_unfold _ _ _ _ _ _ Hsrc).
  rewrite (for_records_handled _ _ _ batches) by done.
  simpl. rewrite Hr, for_items_app, for_items_handled by done.
  rewrite for_items_cons. unfold classify. rewrite Hf, Hp.
  rewrite matching_events_app.
  destruct err; try done; unfold prepend, raised, finished; simpl;
    by rewrite !app_nil_r.
Qed.

(** X6.  A notification without the key [Records] ends the run with
    [KeyError] for that key: the events of the earlier notifications have
    been yielded, the later notifications are not read. *)
Theorem file_generator_missing_records `{!Transport} endpoint bucket
    file_pattern options before batches (fields : dict) later e :
  _record_generator endpoint bucket (default ∅ options)
    = Observed (before ++ VDict fields :: later) e →
  batched before batches →
  Forall (handled file_pattern (default ∅ options)) (concat batches) →
  fields !! "Records" = None →
  file_generator endpoint bucket file_pattern options =
  Observed (matching_events file_pattern (default ∅ options) (concat batches))
           (Raised (KeyError "Records")).
Proof.
  intros Hsrc Hb Hh Hnone.
  rewrite (file_generator_unfold _ _ _ _ _ _ Hsrc).
  apply for_records_stops; [done|done|].
  simpl. unfold record_items. simpl. by rewrite Hnone.
Qed.

(** X7.  When [Records] holds something other than a list, the run ends
    with [TypeError] at that notification, unless the value is an empty
    string or an empty dictionary: numbers, booleans and [None] cannot be
    iterated, and the characters of a string or the keys of a dictionary
    are strings, which have no field [s3]. *)
Theorem file_generator_records_not_a_list `{!Transport} endpoint bucket
    file_pattern options before batches record later e v :
  _record_generator endpoint bucket (default ∅ options)
    = Observed (before ++ record :: later) e →
  batched before batches →
  Forall (handled file_pattern (default ∅ options)) (concat batches) →
  getitem record "Records" = Ret v →
  match v with
  | VList _ => False
  | VStr s => s ≠ ""
  | VDict d => d ≠ ∅
  | _ => True
  end →
  file_generator endpoint bucket file_pattern options =
  Observed (matching_events file_pattern (default ∅ options) (concat batches))
           (Raised TypeError).
Proof.
  intros Hsrc Hb Hh Hv Hshape.
  rewrite (file_generator_unfold _ _ _ _ _ _ Hsrc).
  apply for_records_stops; [done|done|].
  simpl. unfold record_items. rewrite Hv. simpl.
  destruct v as [| | |s|l|d]; simpl; try done.
  - destruct s as [|c s]; [done|]. simpl. done.
  - destruct (map_to_list d) as [|[key value] rest] eqn:Hl.
    + by apply map_to_list_empty_iff in Hl.
    + simpl. done.
Qed.

(** X8.  A notification with no entries changes nothing: the run is the
    one the other notifications give. *)
Theorem file_generator_empty_notification (T1 T2 : Transport) endpoint
    bucket file_pattern options before record later e :
  @_record_generator T1 endpoint bucket (default ∅ options)
    = Observed (before ++ record :: later) e →
  @_record_generator T2 endpoint bucket (default ∅ options)
    = Observed (before ++ later) e →
  record_items record = Ret [] →
  @file_generator _ _ _ T1 endpoint bucket file_pattern options =
  @file_generator _ _ _ T2 endpoint bucket file_pattern options.
Proof.
  intros Hs1 Hs2 Hr.
  rewrite (file_generator_unfold _ _ _ _ _ _ Hs1).
  rewrite (file_generator_unfold _ _ _ _ _ _ Hs2).
  apply for_records_app_cong. simpl. by rewrite Hr.
Qed.

(** X16.  The call of [UPath] is outside the [try]: when it raises for
    an entry whose key fits the pattern, [ValueError] included, the run
    ends with that exception at the entry, after the events of the matching
    entries before it; the rest of the notification and the later
    notifications are not processed. *)
Theorem file_generator_location_failure `{!Transport} endpoint bucket
    file_pattern options before batches record later items1 item items2 e
    n k md err :
  _record_generator endpoint bucket (default ∅ options)
    = Observed (before ++ record :: later) e →
  batched before batches →
  Forall (handled file_pattern (default ∅ options)) (concat batches) →
  record_items record = Ret (items1 ++ item :: items2) →
  Forall (handled file_pattern (default ∅ options)) items1 →
  entry_fields item = Ret (n, k) →
  parse_metadata file_pattern k = Ret md →
  new_UPath ("s3://" +:+ format_field n +:+ "/" +:+ format_field k)
            (default ∅ options) = Raise err →
  file_generator endpoint bucket file_pattern options =
  Observed (matching_events file_pattern (default ∅ options)
              (concat batches ++ items1))
           (Raised err).
Proof.
  intros Hsrc Hb Hh Hr Hh1 Hf Hp Hl.
  rewrite (file_generator_unfold _ _ _ _ _ _ Hsrc).
  rewrite (for_records_handled _ _ _ batches) by done.
  simpl. rewrite Hr, for_items_app, for_items_handled by done.
  rewrite for_items_cons. unfold classify, object_path, object_url.
  rewrite Hf, Hp, Hl. rewrite matching_events_app.
  unfold prepend, raised, finished. simpl. by rewrite !app_nil_r.
Qed.

End failures.

(** ** Reading an entry, binding the keywords, the patched listener *)

Section reading.
Context `{!Formatter, !Trollsift, !Pathlib}.

(** X10.  An entry is read exactly when it is a dictionary whose [s3] is
    a dictionary holding dictionaries [bucket] and [object], the first
    with a [name] and the second with a [key]; these two values are the
    result, and no other field of the entry is looked at. *)
Theorem entry_fields_reads item n k :
  entry_fields item = Ret (n, k) ↔
  ∃ (fields s3 bucket object : dict),
    item = VDict fields
    ∧ fields !! "s3" = Some (VDict s3)
    ∧ s3 !! "bucket" = Some (VDict bucket) ∧ bucket !! "name" = Some n
    ∧ s3 !! "object" = Some (VDict object) ∧ object !! "key" = Some k.
Proof.
  unfold entry_fields, mbind, result_bind, Py.bind, getitem. split.
  - destruct item as [| | | | |fields]; try done.
    destruct (fields !! "s3") as [[| | | | |s3]|] eqn:Hs3; try done.
    destruct (s3 !! "bucket") as [[| | | | |bucket]|] eqn:Hb; try done.
    destruct (bucket !! "name") as [name|] eqn:Hn; try done.
    destruct (s3 !! "object") as [[| | | | |object]|] eqn:Ho; try done.
    destruct (object !! "key") as [key|] eqn:Hk; try done.
    intros [= <- <-]. by exists fields, s3, bucket, object.
  - intros (fields & s3 & bucket & object & -> & Hs3 & Hb & Hn & Ho & Hk).
    by rewrite Hs3, Hb, Hn, Ho, Hk.
Qed.

(** X11.  Reading an entry raises nothing but [TypeError] or [KeyError]
    for one of the names on the two paths; the bucket name is read first,
    so that an entry whose [bucket] has no [name] raises [KeyError] for
    [name] whatever its [object] holds. *)
Theorem entry_fields_exceptions item :
  match entry_fields item with
  | Ret _ => True
  | Raise e =>
      e = TypeError
      ∨ e ∈ KeyError <$> ["s3"; "bucket"; "name"; "object"; "key"]
  end
  ∧ (∀ (fields s3 bucket : dict),
       item = VDict fields → fields !! "s3" = Some (VDict s3) →
       s3 !! "bucket" = Some (VDict bucket) → bucket !! "name" = None →
       entry_fields item = Raise (KeyError "name")).
Proof.
  split.
  - unfold entry_fields, mbind, result_bind, Py.bind, getitem.
    destruct item as [| | | | |fields]; try by left.
    destruct (fields !! "s3") as [[| | | | |s3]|]; try by left.
    2:{ right. set_solver. }
    destruct (s3 !! "bucket") as [[| | | | |bucket]|]; try by left.
    2:{ right. set_solver. }
    destruct (bucket !! "name") as [name|].
    2:{ right. set_solver. }
    destruct (s3 !! "object") as [[| | | | |object]|]; try by left.
    2:{ right. set_solver. }
    destruct (object !! "key") as [key|]; [done|].
    right. set_solver.
  - intros fields s3 bucket -> Hs3 Hb Hn.
    unfold entry_fields, mbind, result_bind, Py.bind, getitem.
    by rewrite Hs3, Hb, Hn.
Qed.

(** X13.  What creating the generator from a configuration does, in the
    order the checks are made: without [bucket_name] the log line raises
    [KeyError], whatever else the configuration holds; with it, a key that
    is no parameter of [file_generator], or a missing [endpoint_url], is a
    [TypeError]; with both and no key but the four parameters, the call
    binds the values given and [None] for the pattern and the storage
    options not given. *)
Theorem file_publisher_call_outcome (fs_config : dict) :
  (fs_config !! "bucket_name" = None →
   file_publisher_call fs_config = Raise (KeyError "bucket_name"))
  ∧ (∀ key, is_Some (fs_config !! "bucket_name") →
            is_Some (fs_config !! key) →
            key ∉ file_generator_parameters →
            file_publisher_call fs_config = Raise TypeError)
  ∧ (is_Some (fs_config !! "bucket_name") →
     fs_config !! "endpoint_url" = None →
     file_publisher_call fs_config = Raise TypeError)
  ∧ (∀ endpoint bucket,
       fs_config !! "endpoint_url" = Some endpoint →
       fs_config !! "bucket_name" = Some bucket →
       dom fs_config ⊆ list_to_set file_generator_parameters →
       file_publisher_call fs_config =
       Ret (CallArgs endpoint bucket
                     (default VNone (fs_config !! "file_pattern"))
                     (default VNone (fs_config !! "storage_options")))).
Proof.
  unfold file_publisher_call, mbind, result_bind, Py.bind, getitem.
  split; [by intros ->|]. split; [|split].
  - intros key [bucket ->] Hkey Hno. unfold bind_file_generator.
    rewrite decide_False; [done|].
    intros Hsub. apply Hno.
    assert (key ∈ dom fs_config) as Hdom by by apply elem_of_dom.
    apply Hsub in Hdom. by apply elem_of_list_to_set in Hdom.
  - intros [bucket ->] Hnone. unfold bind_file_generator.
    rewrite Hnone. by case_decide.
  - intros endpoint bucket He Hb Hkeys. rewrite Hb.
    unfold bind_file_generator. rewrite He, Hb.
    by rewrite decide_True.
Qed.

(** X14.  Under the patched listener of testing.py, which replaces the
    method [listen_bucket_notification] only, the constructor of the
    client still runs: when it raises, the run ends with its exception;
    otherwise the run is the run over the records given, with the source
    exhausted after them, whatever the bucket asked for.  The run is never
    left pending. *)
Theorem patched_listener_run (package : Transport) records endpoint bucket
    bucket' file_pattern options :
  @file_generator _ _ _ (patched_bucket_listener records package)
    endpoint bucket file_pattern options
  = @file_generator _ _ _ (patched_bucket_listener records package)
      endpoint bucket' file_pattern options
  ∧ @file_generator _ _ _ (patched_bucket_listener records package)
      endpoint bucket file_pattern options
    = match @new_Minio package endpoint
              (profile_credentials (default ∅ options)) with
      | Raise err => raised err
      | Ret _ => for_records file_pattern (default ∅ options) records
                   Exhausted
      end
  ∧ ending_of (@file_generator _ _ _ (patched_bucket_listener records package)
                 endpoint bucket file_pattern options) ≠ Pending.
Proof.
  assert (∀ b,
            @file_generator _ _ _ (patched_bucket_listener records package)
              endpoint b file_pattern options
            = match @new_Minio package endpoint
                      (profile_credentials (default ∅ options)) with
              | Raise err => raised err
              | Ret _ => for_records file_pattern (default ∅ options) records
                           Exhausted
              end) as Hrun.
  { intros b. rewrite file_generator_for_records.
    unfold _record_generator, minio_client.
    cbn [new_Minio listen_bucket_notification patched_bucket_listener].
    destruct (@new_Minio package endpoint
                (profile_credentials (default ∅ options))); [|done].
    cbn [yields ending_of]. by rewrite yield_each_observed. }
  split; [by rewrite !Hrun|]. split; [apply Hrun|].
  rewrite Hrun.
  destruct (@new_Minio package endpoint
              (profile_credentials (default ∅ options))); [|done].
  destruct (for_records_outcome file_pattern (default ∅ options) records)
    as [(_ & _ & Hout)|(seen & err & _ & _ & Hout)]; by rewrite Hout.
Qed.

(** X15.  Fields that are not read do not matter: setting or removing,
    in an entry, any field other than [s3] leaves what is read of the
    entry unchanged, and so does setting or removing, inside [s3], any
    field other than [bucket] and [object]. *)
Theorem entry_fields_ignores_other_fields (fields s3 : dict) field value :
  (field ≠ "s3" →
   entry_fields (VDict (<[field := value]> fields))
     = entry_fields (VDict fields)
   ∧ entry_fields (VDict (delete field fields))
     = entry_fields (VDict fields))
  ∧ (field ≠ "bucket" → field ≠ "object" →
     entry_fields (VDict (<["s3" := VDict (<[field := value]> s3)]> fields))
       = entry_fields (VDict (<["s3" := VDict s3]> fields))
     ∧ entry_fields (VDict (<["s3" := VDict (delete field s3)]> fields))
       = entry_fields (VDict (<["s3" := VDict s3]> fields))).
Proof.
  unfold entry_fields, mbind, result_bind, Py.bind, getitem. split.
  - intros Hne. by rewrite lookup_insert_ne, lookup_delete_ne.
  - intros Hb Ho. rewrite !lookup_insert_eq.
    by rewrite !lookup_insert_ne, !lookup_delete_ne.
Qed.

End reading.

(** ** Further runs on concrete notifications *)

Section more_runs.
#[local] Existing Instances plain_formatter prefix_parser s3_upath
  s3_filesystem.

Ltac each_entry :=
  repeat (constructor;
          [first [left; split; reflexivity | right; reflexivity
                 | reflexivity]|]);
  try constructor.

Lemma file_generator_unraised_is_complete_witness :
  let source :=
    @_record_generator (fake_listen example_records) "someendpoint" "tmp" ∅ in
  let out :=
    @file_generator _ _ _ (fake_listen example_records)
      "someendpoint" "tmp" (Some "a") None in
  ending_of out = ending_of source
  ∧ Forall (fun record => ∃ items, record_items record = Ret items)
           (yields source)
  ∧ Forall (handled (Some "a") ∅) (received_entries (yields source))
  ∧ yields out = matching_events (Some "a") ∅
                   (received_entries (yields source)).
Proof.
  apply (@file_generator_unraised_is_complete _ _ _
           (fake_listen example_records) "someendpoint" "tmp" (Some "a") None).
  intros err. vm_compute. discriminate.
Defined.

Lemma file_generator_continues_witness :
  @file_generator _ _ _
    (listen_observed [first_record; mixed_record; last_record] Exhausted)
    "someendpoint" "tmp" (Some "a") None
  = prepend
      (yields (@file_generator _ _ _
                 (listen_observed [first_record; mixed_record] Pending)
                 "someendpoint" "tmp" (Some "a") None))
      (@file_generator _ _ _ (listen_observed [last_record] Exhausted)
         "someendpoint" "tmp" (Some "a") None).
Proof.
  exact (@file_generator_continues _ _ _
           (listen_observed [first_record; mixed_record] Pending)
           (listen_observed [last_record] Exhausted)
           (listen_observed [first_record; mixed_record; last_record]
              Exhausted)
           "someendpoint" "tmp" (Some "a") None
           [first_record; mixed_record] [last_record] Exhausted
           eq_refl eq_refl eq_refl).
Defined.

Lemma file_generator_monotone_witness :
  yields (@file_generator _ _ _ (listen_observed [first_record] Pending)
            "someendpoint" "tmp" (Some "a") None)
    `prefix_of`
    yields (@file_generator _ _ _
              (listen_observed [first_record; broken_record] Exhausted)
              "someendpoint" "tmp" (Some "a") None).
Proof.
  exact (proj1 (@file_generator_monotone _ _ _
                  (listen_observed [first_record] Pending)
                  (listen_observed [first_record; broken_record] Exhausted)
                  "someendpoint" "tmp" (Some "a") None
                  [first_record] [broken_record] Exhausted
                  eq_refl eq_refl)).
Defined.

Lemma file_generator_extractor_failure_witness :
  @file_generator _ _ _
    (fake_listen [first_record; odd_key_record; last_record])
    "someendpoint" "tmp" (Some "a") None
  = Observed (matching_events (Some "a") ∅
                (concat [[entry "tmp" "a.tif"]] ++ [entry "tmp" "ab.tif"]))
             (Raised TypeError).
Proof.
  apply (@file_generator_extractor_failure _ _ _
           (fake_listen [first_record; odd_key_record; last_record])
           "someendpoint" "tmp" (Some "a") None
           [first_record] [[entry "tmp" "a.tif"]] odd_key_record
           [last_record] [entry "tmp" "ab.tif"]
           (entry_with_key "tmp" (VInt 5)) [entry "tmp" "ac.tif"] Exhausted
           (VStr "tmp") (VInt 5) TypeError).
  - reflexivity.
  - unfold batched. each_entry.
  - simpl. each_entry.
  - reflexivity.
  - each_entry.
  - reflexivity.
  - reflexivity.
  - discriminate.
Defined.

Lemma file_generator_missing_records_witness :
  @file_generator _ _ _
    (fake_listen [first_record; notification_without_records; last_record])
    "someendpoint" "tmp" (Some "a") None
  = Observed (matching_events (Some "a") ∅ (concat [[entry "tmp" "a.tif"]]))
             (Raised (KeyError "Records")).
Proof.
  apply (@file_generator_missing_records _ _ _
           (fake_listen
              [first_record; notification_without_records; last_record])
           "someendpoint" "tmp" (Some "a") None
           [first_record] [[entry "tmp" "a.tif"]]
           (list_to_map [("EventName", VStr "s3:ObjectCreated:Put")])
           [last_record] Exhausted).
  - reflexivity.
  - unfold batched. each_entry.
  - simpl. each_entry.
  - reflexivity.
Defined.

Lemma file_generator_records_not_a_list_witness :
  @file_generator _ _ _
    (fake_listen [first_record; notification_of (VStr "abc"); last_record])
    "someendpoint" "tmp" (Some "a") None
  = Observed (matching_events (Some "a") ∅ (concat [[entry "tmp" "a.tif"]]))
             (Raised TypeError).
Proof.
  apply (@file_generator_records_not_a_list _ _ _
           (fake_listen
              [first_record; notification_of (VStr "abc"); last_record])
           "someendpoint" "tmp" (Some "a") None
           [first_record] [[entry "tmp" "a.tif"]]
           (notification_of (VStr "abc")) [last_record] Exhausted
           (VStr "abc")).
  - reflexivity.
  - unfold batched. each_entry.
  - simpl. each_entry.
  - reflexivity.
  - discriminate.
Defined.

Lemma file_generator_empty_notification_witness :
  @file_generator _ _ _
    (fake_listen [first_record; notification []; last_record])
    "someendpoint" "tmp" (Some "a") None
  = @file_generator _ _ _ (fake_listen [first_record; last_record])
      "someendpoint" "tmp" (Some "a") None.
Proof.
  exact (@file_generator_empty_notification _ _ _
           (fake_listen [first_record; notification []; last_record])
           (fake_listen [first_record; last_record])
           "someendpoint" "tmp" (Some "a") None
           [first_record] (notification []) [last_record] Exhausted
           eq_refl eq_refl eq_refl).
Defined.

Lemma entry_fields_reads_witness :
  ∃ (fields s3 bucket object : dict),
    entry "tmp" "a.tif" = VDict fields
    ∧ fields !! "s3" = Some (VDict s3)
    ∧ s3 !! "bucket" = Some (VDict bucket)
    ∧ bucket !! "name" = Some (VStr "tmp")
    ∧ s3 !! "object" = Some (VDict object)
    ∧ object !! "key" = Some (VStr "a.tif").
Proof.
  apply (proj1 (entry_fields_reads (entry "tmp" "a.tif")
                  (VStr "tmp") (VStr "a.tif"))).
  reflexivity.
Defined.

Lemma entry_fields_exceptions_witness :
  entry_fields (entry_without_bucket_name "a.tif") = Raise (KeyError "name").
Proof.
  apply (proj2 (entry_fields_exceptions (entry_without_bucket_name "a.tif"))
           (list_to_map
              [("s3", obj [("bucket", obj [("arn", VStr "arn:aws:s3:::tmp")]);
                           ("object", obj [("key", VStr "a.tif")])])])
           (list_to_map
              [("bucket", obj [("arn", VStr "arn:aws:s3:::tmp")]);
               ("object", obj [("key", VStr "a.tif")])])
           (list_to_map [("arn", VStr "arn:aws:s3:::tmp")]));
    reflexivity.
Defined.

Lemma file_publisher_call_outcome_witness :
  file_publisher_call (delete "bucket_name" s3_config)
    = Raise (KeyError "bucket_name")
  ∧ file_publisher_call s3_config = Raise TypeError
  ∧ file_publisher_call (delete "endpoint_url" s3_config_with_options)
    = Raise TypeError
  ∧ file_publisher_call s3_config_with_options
    = Ret (CallArgs (VStr "someendpoint") (VStr "viirs-data") VNone
                    (obj [("profile", VStr "someprofile")])).
Proof.
  split; [|split; [|split]].
  - apply (proj1 (file_publisher_call_outcome
                    (delete "bucket_name" s3_config))).
    reflexivity.
  - apply (proj1 (proj2 (file_publisher_call_outcome s3_config)) "profile").
    + eexists. reflexivity.
    + eexists. reflexivity.
    + apply (bool_decide_unpack _). vm_compute. exact I.
  - apply (proj1 (proj2 (proj2 (file_publisher_call_outcome
                    (delete "endpoint_url" s3_config_with_options))))).
    + eexists. reflexivity.
    + reflexivity.
  - apply (proj2 (proj2 (proj2 (file_publisher_call_outcome
                    s3_config_with_options)))
             (VStr "someendpoint") (VStr "viirs-data")).
    + reflexivity.
    + reflexivity.
    + apply (bool_decide_unpack _). vm_compute. exact I.
Defined.

Lemma entry_fields_ignores_other_fields_witness :
  entry_fields
    (VDict (<["eventTime" := VStr "2024-04-08T10:24:22.544Z"]>
              (list_to_map
                 [("s3", obj [("bucket", obj [("name", VStr "tmp")]);
                              ("object", obj [("key", VStr "a.tif")])])])))
  = entry_fields
      (VDict (list_to_map
                [("s3", obj [("bucket", obj [("name", VStr "tmp")]);
                             ("object", obj [("key", VStr "a.tif")])])])).
Proof.
  apply (proj1 (entry_fields_ignores_other_fields
                  (list_to_map
                     [("s3", obj [("bucket", obj [("name", VStr "tmp")]);
                                  ("object", obj [("key", VStr "a.tif")])])])
                  ∅ "eventTime" (VStr "2024-04-08T10:24:22.544Z"))).
  discriminate.
Defined.

Lemma file_generator_location_failure_witness :
  @file_generator _ _ _
    (fake_listen [first_record;
                  notification [entry "tmp" "ab.tif"; entry "[" "ac.tif";
                                entry "tmp" "ad.tif"];
                  last_record])
    "someendpoint" "tmp" (Some "a") None
  = Observed (matching_events (Some "a") ∅
                (concat [[entry "tmp" "a.tif"]] ++ [entry "tmp" "ab.tif"]))
             (Raised ValueError).
Proof.
  apply (@file_generator_location_failure _ _ _
           (fake_listen [first_record;
                         notification [entry "tmp" "ab.tif";
                                       entry "[" "ac.tif";
                                       entry "tmp" "ad.tif"];
                         last_record])
           "someendpoint" "tmp" (Some "a") None
           [first_record] [[entry "tmp" "a.tif"]]
           (notification [entry "tmp" "ab.tif"; entry "[" "ac.tif";
                          entry "tmp" "ad.tif"])
           [last_record] [entry "tmp" "ab.tif"] (entry "[" "ac.tif")
           [entry "tmp" "ad.tif"] Exhausted
           (VStr "[") (VStr "ac.tif") ∅ ValueError).
  - reflexivity.
  - unfold batched. each_entry.
  - simpl. each_entry.
  - reflexivity.
  - each_entry.
  - reflexivity.
  - reflexivity.
  - reflexivity.
Defined.

Lemma patched_listener_run_witness :
  @file_generator _ _ _ (patched_bucket_listener example_records checking_minio)
    "some/endpoint" "tmp" (Some "a") None
  = raised ValueError
  ∧ @file_generator _ _ _
      (patched_bucket_listener example_records checking_minio)
      "someendpoint" "tmp" (Some "a") None
    = for_records (Some "a") ∅ example_records Exhausted.
Proof.
  split.
  - exact (proj1 (proj2
      (@patched_listener_run _ _ _ checking_minio example_records
         "some/endpoint" "tmp" "tmp" (Some "a") None))).
  - exact (proj1 (proj2
      (@patched_listener_run _ _ _ checking_minio example_records
         "someendpoint" "tmp" "tmp" (Some "a") None))).
Defined.

End more_runs.
